(** * Lead intake handlers of audituniversepro-site

    Shallow embedding of the three [onRequest] handlers of the repository:
    - [LeadA]: the first handler of [functions/api/lead.js] (lines 1-165;
      its final [catch] block is cut off in the source inside the error
      message of its [jsonResponse] call, which starts with the letter S);
    - [LeadB]: the second handler of [functions/api/lead.js] (lines 167-284);
    - [Part000]: the handler of [unnamed/part_000].

    Strings are JavaScript strings whose code units all lie in the
    Latin-1 range (0-255), one Rocq [ascii] per code unit.  Numbers are
    integers.  The platform's [Request] parsers ([request.json()],
    [request.formData()], [request.text()]) and [new URL(..).pathname] are
    given by their outcomes in the request record; storage and webhook
    calls are awaited external calls whose outcomes are given by a [world]
    record, and both are recorded in an effect trace. *)

From Stdlib Require Import String Ascii List Bool ZArith Lia.
Import ListNotations.
Open Scope string_scope.
Open Scope Z_scope.
Set Warnings "-register-all".

(** ** JavaScript values *)

Inductive jval : Type :=
| JUndef
| JNull
| JBool (b : bool)
| JNum (z : Z)
| JStr (s : string)
| JArr (l : list jval)
| JObj (fields : list (string * jval)).

(** Own-property lookup on an object's field list; a missing key is
    [undefined]. *)
Fixpoint lookup (k : string) (fs : list (string * jval)) : jval :=
  match fs with
  | [] => JUndef
  | (k', v) :: fs' => if String.eqb k k' then v else lookup k fs'
  end.

(** [obj[k] = v]: overwrite an existing key in place, else append. *)
Fixpoint obj_set (k : string) (v : jval) (fs : list (string * jval))
  : list (string * jval) :=
  match fs with
  | [] => [(k, v)]
  | (k', v') :: fs' =>
      if String.eqb k k' then (k', v) :: fs' else (k', v') :: obj_set k v fs'
  end.

(** [Object.fromEntries(entries)]: a later entry overwrites an earlier one. *)
Definition fromEntries (es : list (string * string)) : list (string * jval) :=
  fold_left (fun acc '(k, v) => obj_set k (JStr v) acc) es [].

(** [FormData.prototype.get]: the first value of the key, [null] if none. *)
Fixpoint form_get (k : string) (es : list (string * string)) : jval :=
  match es with
  | [] => JNull
  | (k', v) :: es' => if String.eqb k k' then JStr v else form_get k es'
  end.

(** ToBoolean *)
Definition truthy (v : jval) : bool :=
  match v with
  | JUndef | JNull => false
  | JBool b => b
  | JNum z => negb (z =? 0)
  | JStr s => negb (String.eqb s "")
  | JArr _ | JObj _ => true
  end.

(** [v == null] *)
Definition is_nullish (v : jval) : bool :=
  match v with JUndef | JNull => true | _ => false end.

(** Decimal digits of a natural number. *)
Fixpoint digits_pos (fuel : nat) (n : Z) (acc : string) : string :=
  match fuel with
  | O => acc
  | S fuel' =>
      let d := ascii_of_nat (48 + Z.to_nat (n mod 10)) in
      if n <? 10 then String d acc else digits_pos fuel' (n / 10) (String d acc)
  end.

Definition Z_to_js_string (z : Z) : string :=
  if z <? 0 then "-" ++ digits_pos (Z.to_nat (Z.log2 (- z)) + 1) (- z) ""
  else digits_pos (Z.to_nat (Z.log2 z) + 1) z "".

(** ToString, [String(v)]; an array is joined with ",", its [null] and
    [undefined] elements printing as the empty string. *)
Fixpoint js_String (v : jval) : string :=
  match v with
  | JUndef => "undefined"
  | JNull => "null"
  | JBool true => "true"
  | JBool false => "false"
  | JNum z => Z_to_js_string z
  | JStr s => s
  | JArr l =>
      (fix join (l : list jval) : string :=
         match l with
         | [] => ""
         | [x] => if is_nullish x then "" else js_String x
         | x :: l' => (if is_nullish x then "" else js_String x) ++ "," ++ join l'
         end) l
  | JObj _ => "[object Object]"
  end.

(** Strict equality [===] on the primitive values the handlers compare. *)
Definition strict_eq (v w : jval) : bool :=
  match v, w with
  | JUndef, JUndef | JNull, JNull => true
  | JBool a, JBool b => Bool.eqb a b
  | JNum a, JNum b => a =? b
  | JStr a, JStr b => String.eqb a b
  | _, _ => false
  end.

(** ** String operations on Latin-1 code units *)

(** JavaScript WhiteSpace and LineTerminator code units below 256: the set
    removed by [trim] and matched by the regular-expression class [\s]. *)
Definition is_js_space (c : ascii) : bool :=
  match nat_of_ascii c with
  | 9 | 10 | 11 | 12 | 13 | 32 | 160 => true
  | _ => false
  end%nat.

Fixpoint trim_start (s : string) : string :=
  match s with
  | EmptyString => EmptyString
  | String c s' => if is_js_space c then trim_start s' else s
  end.

Fixpoint trim_end (s : string) : string :=
  match s with
  | EmptyString => EmptyString
  | String c s' =>
      let t := trim_end s' in
      if String.eqb t "" && is_js_space c then "" else String c t
  end.

(** [String.prototype.trim] *)
Definition js_trim (s : string) : string := trim_end (trim_start s).

(** [toLowerCase] on one Latin-1 code unit: A-Z and U+00C0-U+00DE except
    U+00D7 map 32 code points up. *)
Definition lower_char (c : ascii) : ascii :=
  let n := nat_of_ascii c in
  if (((65 <=? n) && (n <=? 90)) || ((192 <=? n) && (n <=? 222) && negb (n =? 215)))%nat
  then ascii_of_nat (n + 32) else c.

Fixpoint toLowerCase (s : string) : string :=
  match s with
  | EmptyString => EmptyString
  | String c s' => String (lower_char c) (toLowerCase s')
  end.

(** [s.slice(0, n)] *)
Definition slice0 (n : nat) (s : string) : string := substring 0 n s.

(** [s.includes(sub)] *)
Fixpoint includes (s sub : string) : bool :=
  prefix sub s ||
  match s with
  | EmptyString => false
  | String _ s' => includes s' sub
  end.

(** [s.startsWith(p)] *)
Definition startsWith (s p : string) : bool := prefix p s.

(** [s.endsWith(suf)] *)
Definition endsWith (s suf : string) : bool :=
  let n := String.length s in
  let m := String.length suf in
  (m <=? n)%nat && String.eqb (substring (n - m) m s) suf.

(** ** The email regular expression [/^[^\s@]+@[^\s@]+\.[^\s@]+$/] *)

Inductive rx_atom : Type :=
| NotSpaceOrAt            (* [^\s@] *)
| Lit (c : ascii).        (* a literal character *)

Inductive rx_piece : Type :=
| One (a : rx_atom)
| Plus (a : rx_atom).     (* a+ *)

Definition atom_ok (a : rx_atom) (c : ascii) : bool :=
  match a with
  | NotSpaceOrAt => negb (is_js_space c) && negb (Ascii.eqb c "@")
  | Lit d => Ascii.eqb c d
  end.

(** Backtracking match of a sequence of pieces against the whole string
    (anchored by [^] and [$]; [$] without the [m] flag is the end of input). *)
Fixpoint rx_match (s : string) (ps : list rx_piece) {struct s} : bool :=
  match ps with
  | [] => match s with EmptyString => true | _ => false end
  | p :: ps' =>
      match s with
      | EmptyString => false
      | String c s' =>
          match p with
          | One a => if atom_ok a c then rx_match s' ps' else false
          | Plus a =>
              if atom_ok a c then
                (* stop the repetition here, else take one more character *)
                if rx_match s' ps' then true else rx_match s' (Plus a :: ps')
              else false
          end
      end
  end.

Definition email_rx : list rx_piece :=
  [Plus NotSpaceOrAt; One (Lit "@"); Plus NotSpaceOrAt; One (Lit ".");
   Plus NotSpaceOrAt].

(** [isValidEmail] (identical in [lead.js] and [part_000]; the second
    handler of [lead.js] inlines the same literal). *)
Definition isValidEmail (email : string) : bool := rx_match email email_rx.

(** ** Requests, environment and external calls *)

(** [request.method], its headers (lower-case names, as [Headers] stores
    them), the path of [request.url], and the outcomes of the platform
    parsers: [None] when the call throws or rejects. *)
Record request : Type := {
  req_method : string;
  req_headers : list (string * string);
  req_url_path : string;                       (* new URL(request.url).pathname *)
  req_referer_path : option string;            (* new URL(Referer).pathname *)
  req_json : option jval;                      (* await request.json() *)
  req_form : option (list (string * string));  (* (await request.formData()).entries() *)
  req_text_params : option (list (string * string))
    (* new URLSearchParams(await request.text()) entries *)
}.

(** [request.headers.get(name)]: [None] stands for [null]. *)
Fixpoint assoc_get (k : string) (l : list (string * string)) : option string :=
  match l with
  | [] => None
  | (k', v) :: l' => if String.eqb k k' then Some v else assoc_get k l'
  end.

Definition header_get (name : string) (req : request) : option string :=
  assoc_get name (req_headers req).

(** [request.headers.get(name) || ""] *)
Definition header_or_empty (name : string) (req : request) : string :=
  match header_get name req with Some s => s | None => "" end.

(** [request.headers.get(name)] as a JavaScript value. *)
Definition header_val (name : string) (req : request) : jval :=
  match header_get name req with Some s => JStr s | None => JNull end.

(** [context.env]: whether the [LEADS_DB] binding is present and the value
    of [LEAD_WEBHOOK_URL] ([None] when undefined). *)
Record env : Type := {
  env_leads_db : bool;
  env_webhook : option string
}.

(** Outcomes of the awaited external calls: the D1 insert, the webhook
    [fetch] (false: the promise rejects, e.g. on a network error) and
    [new Date().toISOString()]. *)
Record world : Type := {
  w_insert_ok : bool;
  w_fetch_ok : bool;
  w_now : string
}.

(** A bound SQL parameter. *)
Inductive sql_val : Type :=
| SNull
| SText (s : string)
| SInt (z : Z).

(** The parameters bound to
    [INSERT INTO leads (name, email, website, message, consent, source_path, user_agent)]. *)
Record row : Type := {
  row_name : sql_val;
  row_email : sql_val;
  row_website : sql_val;
  row_message : sql_val;
  row_consent : sql_val;
  row_source_path : sql_val;
  row_user_agent : sql_val
}.

Inductive effect : Type :=
| EInsert (r : row)                       (* LEADS_DB.prepare(..).bind(..).run() *)
| EFetch (url : string) (payload : jval). (* fetch(url, { body: JSON.stringify(payload) }) *)

(** ** An exception and trace monad for the async handler code *)

Inductive result (A : Type) : Type :=
| RVal (a : A)
| RThrow.
Arguments RVal {A} a.
Arguments RThrow {A}.

Definition M (A : Type) : Type := list effect -> result A * list effect.

Definition ret {A} (a : A) : M A := fun tr => (RVal a, tr).

Definition bind {A B} (m : M A) (k : A -> M B) : M B :=
  fun tr => match m tr with
            | (RVal a, tr') => k a tr'
            | (RThrow, tr') => (RThrow, tr')
            end.

Definition throw {A} : M A := fun tr => (RThrow, tr).

Definition emit (e : effect) : M unit := fun tr => (RVal tt, app tr [e]).

(** [try { m } catch { h }]: effects performed before the throw stay. *)
Definition try_catch {A} (m : M A) (h : M A) : M A :=
  fun tr => match m tr with
            | (RThrow, tr') => h tr'
            | r => r
            end.

Definition of_option {A} (o : option A) : M A :=
  match o with Some a => ret a | None => throw end.

Notation "x <- m ;; k" := (bind m (fun x => k))
  (at level 61, m at next level, right associativity).

(** Running a handler from an empty trace. *)
Definition run {A} (m : M A) : result A * list effect := m [].

(** [await env.LEADS_DB.prepare(..).bind(..).run()] *)
Definition d1_insert (w : world) (r : row) : M unit :=
  _ <- emit (EInsert r) ;;
  if w_insert_ok w then ret tt else throw.

(** [await fetch(url, ..)]: rejects on a network error. *)
Definition fetch (w : world) (url : string) (payload : jval) : M unit :=
  _ <- emit (EFetch url payload) ;;
  if w_fetch_ok w then ret tt else throw.

(** [obj.k]: reading a property of [undefined] or [null] throws a
    [TypeError]; other primitives have none of the keys the handlers read. *)
Definition getprop (v : jval) (k : string) : option jval :=
  match v with
  | JUndef | JNull => None
  | JObj fs => Some (lookup k fs)
  | _ => Some JUndef
  end.

(** ** Responses *)

Record response : Type := {
  resp_status : Z;
  resp_headers : list (string * string);
  resp_body : option jval   (* [Some v]: the body [JSON.stringify(v)] *)
}.

(** [new Response(body, { status, headers })] per the Fetch standard: a
    status outside 200-599 is a [RangeError], a non-null body with a
    null-body status (204, 205, 304) a [TypeError]. *)
Definition new_Response (body : option jval) (status : Z)
    (headers : list (string * string)) : M response :=
  if negb ((200 <=? status) && (status <=? 599)) then throw
  else match body with
       | Some _ => if (status =? 204) || (status =? 205) || (status =? 304)
                   then throw
                   else ret {| resp_status := status; resp_headers := headers;
                               resp_body := body |}
       | None => ret {| resp_status := status; resp_headers := headers;
                        resp_body := body |}
       end.

(** What a handler produces: a response, or (first handler of [lead.js]
    only) control reaching its outer [catch] block, whose response is cut
    off in the source. *)
Inductive reply : Type :=
| Reply (r : response)
| TruncatedCatch.

Definition reply_of (m : M response) : M reply := r <- m ;; ret (Reply r).

(** [{ ok: b }] and [{ ok: false, error: msg }] *)
Definition ok_body (b : bool) : jval := JObj [("ok", JBool b)].
Definition err_body (msg : string) : jval :=
  JObj [("ok", JBool false); ("error", JStr msg)].

(** [s || null] for a string bound as an SQL parameter. *)
Definition or_null (s : string) : sql_val :=
  if String.eqb s "" then SNull else SText s.


(** ** First handler of [functions/api/lead.js] (lines 1-165) *)
Module LeadA.

Definition jsonResponse (body : jval) (status : Z) (origin : string) : M response :=
  new_Response (Some body) status
    ([("content-type", "application/json; charset=utf-8");
      ("cache-control", "no-store")] ++
     (if String.eqb origin "" then []
      else [("access-control-allow-origin", origin); ("vary", "Origin")]) ++
     [("access-control-allow-methods", "POST, OPTIONS");
      ("access-control-allow-headers", "Content-Type");
      ("access-control-max-age", "86400")])%list.

Definition allow : list string :=
  ["https://audituniversepro.com"; "https://www.audituniversepro.com"].

Definition pickAllowedOrigin (req : request) : string :=
  let origin := header_or_empty "origin" req in
  if String.eqb origin "" then ""
  else if endsWith origin ".pages.dev" then origin
  else if startsWith origin "http://localhost" then origin
  else if existsb (String.eqb origin) allow then origin
  else "https://audituniversepro.com".

Definition normalizeString (v : jval) (max : nat) : string :=
  if is_nullish v then ""
  else let s := js_trim (js_String v) in
       if (max <? String.length s)%nat then slice0 max s else s.

Definition body_keys : list string :=
  ["name"; "email"; "website"; "message"; "consent"; "source_path"; "company"].

(** [readBody]: the object literal of seven properties it returns;
    [None] when [request.json()] or [request.formData()] throws, or when
    the parsed JSON is [null]. *)
Definition readBody (req : request) : option (list (string * jval)) :=
  let ct := header_or_empty "content-type" req in
  if includes ct "application/json" then
    match req_json req with
    | Some data =>
        match getprop data "name" with
        | Some _ => Some (map (fun k => (k, match getprop data k with
                                          | Some v => v | None => JUndef end))
                              body_keys)
        | None => None
        end
    | None => None
    end
  else
    match req_form req with
    | Some es => Some (map (fun k => (k, form_get k es)) body_keys)
    | None => None
    end.

(** [String(raw.consent ?? "").toLowerCase()] compared with "1", "true", "on". *)
Definition consent_of (v : jval) : Z :=
  let consentRaw := toLowerCase (js_String (if is_nullish v then JStr "" else v)) in
  if String.eqb consentRaw "1" || String.eqb consentRaw "true" || String.eqb consentRaw "on"
  then 1 else 0.

Definition onRequest (req : request) (e : env) (w : world) : M reply :=
  let origin := pickAllowedOrigin req in
  if String.eqb (req_method req) "OPTIONS" then
    reply_of (jsonResponse (ok_body true) 204 origin)
  else if negb (String.eqb (req_method req) "POST") then
    reply_of (jsonResponse (err_body "Method not allowed") 405 origin)
  else try_catch
    (if negb (env_leads_db e) then
       reply_of (jsonResponse (err_body "Missing D1 binding: LEADS_DB") 500 origin)
     else
       raw <- of_option (readBody req) ;;
       let company := normalizeString (lookup "company" raw) 200 in
       if negb (String.eqb company "") then
         reply_of (jsonResponse (ok_body true) 200 origin)
       else
         let name := normalizeString (lookup "name" raw) 120 in
         let email := toLowerCase (normalizeString (lookup "email" raw) 200) in
         let website := normalizeString (lookup "website" raw) 300 in
         let message := normalizeString (lookup "message" raw) 2000 in
         let consent := consent_of (lookup "consent" raw) in
         let sp := normalizeString (lookup "source_path" raw) 300 in
         let source_path := if String.eqb sp "" then req_url_path req else sp in
         let user_agent := normalizeString (header_val "user-agent" req) 300 in
         if String.eqb email "" || negb (isValidEmail email) then
           reply_of (jsonResponse (err_body "Valid email is required.") 400 origin)
         else
           _ <- d1_insert w {| row_name := or_null name; row_email := SText email;
                               row_website := or_null website;
                               row_message := or_null message;
                               row_consent := SInt consent;
                               row_source_path := or_null source_path;
                               row_user_agent := or_null user_agent |} ;;
           _ <- (match env_webhook e with
                 | Some hook =>
                     if String.eqb hook "" then ret tt
                     else fetch w hook
                            (JObj [("name", JStr name); ("email", JStr email);
                                   ("website", JStr website); ("message", JStr message);
                                   ("consent", JBool (consent =? 1));
                                   ("source_path", JStr source_path);
                                   ("user_agent", JStr user_agent);
                                   ("ts", JStr (w_now w))])
                 | None => ret tt
                 end) ;;
           reply_of (jsonResponse (ok_body true) 200 origin))
    (ret TruncatedCatch).

End LeadA.

(** ** Second handler of [functions/api/lead.js] (lines 167-284) *)
Module LeadB.

Definition corsHeaders (origin : string) : list (string * string) :=
  [("access-control-allow-origin", if String.eqb origin "" then "*" else origin);
   ("access-control-allow-methods", "POST, OPTIONS");
   ("access-control-allow-headers", "Content-Type");
   ("access-control-max-age", "86400");
   ("vary", "Origin")].

Definition json (obj : jval) (status : Z) (origin : string) : M response :=
  new_Response (Some obj) status
    (("content-type", "application/json; charset=utf-8") :: corsHeaders origin).

(** The body parsing block: any failure inside the [try] leaves [data = {}]. *)
Definition parseBody (req : request) : jval :=
  let ct := toLowerCase (header_or_empty "content-type" req) in
  let params := match req_text_params req with
                | Some es => JObj (fromEntries es) | None => JObj [] end in
  if includes ct "application/json" then
    match req_json req with Some d => d | None => JObj [] end
  else if includes ct "application/x-www-form-urlencoded" then params
  else if includes ct "multipart/form-data" then
    match req_form req with Some es => JObj (fromEntries es) | None => JObj [] end
  else params.

(** [const str = (v) => (v == null ? "" : String(v)).trim();] *)
Definition str (v : jval) : string :=
  js_trim (if is_nullish v then "" else js_String v).

Definition consent_of (v : jval) : Z :=
  let consentRaw := toLowerCase (str v) in
  if existsb (String.eqb consentRaw) ["1"; "true"; "on"; "yes"] then 1 else 0.

Definition onRequest (req : request) (e : env) (w : world) : M reply :=
  let origin := header_or_empty "origin" req in
  if String.eqb (req_method req) "OPTIONS" then
    reply_of (new_Response None 204 (corsHeaders origin))
  else if negb (String.eqb (req_method req) "POST") then
    reply_of (json (err_body "Method not allowed. Use POST.") 405 origin)
  else
    let data := parseBody req in
    hpv <- of_option (getprop data "hp") ;;
    companyv <- of_option (getprop data "company") ;;
    let hp := str (if truthy hpv then hpv else companyv) in
    if negb (String.eqb hp "") then reply_of (json (ok_body true) 200 origin)
    else
      name_v <- of_option (getprop data "name") ;;
      email_v <- of_option (getprop data "email") ;;
      website_v <- of_option (getprop data "website") ;;
      message_v <- of_option (getprop data "message") ;;
      source_path_v <- of_option (getprop data "source_path") ;;
      consent_v <- of_option (getprop data "consent") ;;
      let name := slice0 120 (str name_v) in
      let email := slice0 200 (str email_v) in
      let website := slice0 300 (str website_v) in
      let message := slice0 3000 (str message_v) in
      let source_path := slice0 500 (str source_path_v) in
      let user_agent := slice0 400 (str (header_val "user-agent" req)) in
      let consent := consent_of consent_v in
      if String.eqb email "" then reply_of (json (err_body "Email is required.") 400 origin)
      else if negb (isValidEmail email) then
        reply_of (json (err_body "Invalid email format.") 400 origin)
      else if consent =? 0 then reply_of (json (err_body "Consent is required.") 400 origin)
      else
        early <- try_catch
          (if negb (env_leads_db e) then
             r <- json (err_body "Server not configured (LEADS_DB missing).") 500 origin ;;
             ret (Some r)
           else
             _ <- d1_insert w {| row_name := or_null name; row_email := SText email;
                                 row_website := or_null website;
                                 row_message := or_null message;
                                 row_consent := SInt consent;
                                 row_source_path := or_null source_path;
                                 row_user_agent := or_null user_agent |} ;;
             ret None)
          (r <- json (err_body "Database insert failed.") 500 origin ;; ret (Some r)) ;;
        match early with
        | Some r => ret (Reply r)
        | None =>
            let webhook := str (match env_webhook e with
                                | Some s => JStr s | None => JUndef end) in
            _ <- (if String.eqb webhook "" then ret tt
                  else
                    let ip := match header_get "cf-connecting-ip" req with
                              | Some s => if String.eqb s "" then header_or_empty "x-forwarded-for" req else s
                              | None => header_or_empty "x-forwarded-for" req
                              end in
                    try_catch
                      (fetch w webhook
                         (JObj [("created_at", JStr (w_now w)); ("name", JStr name);
                                ("email", JStr email); ("website", JStr website);
                                ("message", JStr message); ("consent", JBool (negb (consent =? 0)));
                                ("source_path", JStr source_path);
                                ("user_agent", JStr user_agent); ("ip", JStr ip)]))
                      (ret tt)) ;;
            reply_of (json (ok_body true) 200 origin)
        end.

End LeadB.

(** ** The handler of [unnamed/part_000] *)
Module Part000.

Definition ALLOWED_ORIGINS : list string :=
  ["https://audituniversepro.com"; "https://www.audituniversepro.com";
   "https://audituniversepro-site.pages.dev"; "http://localhost:8000";
   "http://127.0.0.1:8000"; "http://localhost:8788"; "http://127.0.0.1:8788"].

Definition normalizeStr (v : jval) (maxLen : nat) : string :=
  if is_nullish v then ""
  else let s := js_trim (js_String v) in
       if (maxLen <? String.length s)%nat then slice0 maxLen s else s.

Definition getAllowedOrigin (req : request) : string :=
  match header_get "origin" req with
  | None => ""
  | Some origin =>
      if String.eqb origin "" then ""
      else if existsb (String.eqb origin) ALLOWED_ORIGINS then origin else ""
  end.

Definition cors_part (origin : string) : list (string * string) :=
  if String.eqb origin "" then []
  else [("access-control-allow-origin", origin); ("vary", "Origin")].

Definition jsonResponse (payload : jval) (status : Z) (origin : string) : M response :=
  new_Response (Some payload) status
    ([("content-type", "application/json; charset=utf-8");
      ("cache-control", "no-store")] ++ cors_part origin)%list.

Definition corsPreflight (origin : string) : M response :=
  new_Response None 204
    ([("cache-control", "no-store");
      ("access-control-allow-methods", "POST, OPTIONS");
      ("access-control-allow-headers", "Content-Type");
      ("access-control-max-age", "86400")] ++ cors_part origin)%list.

(** [readBody]: the parsed JSON value, or the object built from the form
    entries (a later entry overwrites an earlier one); [None] when the
    parser throws. *)
Definition readBody (req : request) : option jval :=
  let ct := header_or_empty "content-type" req in
  if includes ct "application/json" then req_json req
  else match req_form req with
       | Some es => Some (JObj (fromEntries es))
       | None => None
       end.

Definition consent_of (consentRaw : jval) : bool :=
  strict_eq consentRaw (JBool true) || strict_eq consentRaw (JStr "true") ||
  strict_eq consentRaw (JStr "1") || strict_eq consentRaw (JNum 1) ||
  strict_eq consentRaw (JStr "on").

(** Lines 116-123: caller value, else the Referer's path, else the path of
    the request URL. *)
Definition resolve_source_path (req : request) (given : string) : string :=
  if negb (String.eqb given "") then given
  else
    let ref := header_or_empty "referer" req in
    let from_ref := if String.eqb ref "" then ""
                    else match req_referer_path req with
                         | Some p => p      (* new URL(ref).pathname || "" *)
                         | None => ""       (* catch (_) {} *)
                         end in
    if String.eqb from_ref "" then req_url_path req else from_ref.

Definition onRequest (req : request) (e : env) (w : world) : M reply :=
  let origin := getAllowedOrigin req in
  if String.eqb (req_method req) "OPTIONS" then reply_of (corsPreflight origin)
  else if negb (String.eqb (req_method req) "POST") then
    reply_of (jsonResponse (err_body "Method not allowed") 405 origin)
  else try_catch
    (body <- of_option (readBody req) ;;
     name_v <- of_option (getprop body "name") ;;
     email_v <- of_option (getprop body "email") ;;
     website_v <- of_option (getprop body "website") ;;
     message_v <- of_option (getprop body "message") ;;
     consent_v <- of_option (getprop body "consent") ;;
     let name := normalizeStr name_v 200 in
     let email := toLowerCase (normalizeStr email_v 200) in
     let website := normalizeStr website_v 500 in
     let message := normalizeStr message_v 4000 in
     let consent := consent_of consent_v in
     if String.eqb email "" || negb (isValidEmail email) then
       reply_of (jsonResponse (err_body "Invalid email") 400 origin)
     else if negb consent then
       reply_of (jsonResponse (err_body "Consent required") 400 origin)
     else
       source_path_v <- of_option (getprop body "source_path") ;;
       let source_path := resolve_source_path req (normalizeStr source_path_v 500) in
       let user_agent := normalizeStr (JStr (header_or_empty "user-agent" req)) 500 in
       if negb (env_leads_db e) then
         reply_of (jsonResponse (err_body "Server misconfiguration (LEADS_DB missing)") 500 origin)
       else
         _ <- d1_insert w {| row_name := SText name; row_email := SText email;
                             row_website := SText website; row_message := SText message;
                             row_consent := SInt 1; row_source_path := SText source_path;
                             row_user_agent := SText user_agent |} ;;
         let hook := js_trim (match env_webhook e with Some s => s | None => "" end) in
         webhook_sent <-
           (if String.eqb hook "" then ret false
            else try_catch
                   (_ <- fetch w hook
                           (JObj [("name", JStr name); ("email", JStr email);
                                  ("website", JStr website); ("message", JStr message);
                                  ("consent", JBool true);
                                  ("source_path", JStr source_path);
                                  ("user_agent", JStr user_agent);
                                  ("ts", JStr (w_now w))]) ;;
                    ret true)
                   (ret false)) ;;
         reply_of (jsonResponse (JObj [("ok", JBool true); ("webhook_sent", JBool webhook_sent)])
                     200 origin))
    (reply_of (jsonResponse (err_body "Server error") 500 origin)).

End Part000.

(** ** Helpers for stating properties *)

(** The value coerced to text ([null] and [undefined] as the empty string)
    and trimmed. *)
Definition trimmed_text (v : jval) : string :=
  js_trim (if is_nullish v then "" else js_String v).

(** A POST request with a JSON body whose parse yields [data]. *)
Definition json_post (path : string) (hdrs : list (string * string)) (data : jval)
  : request :=
  {| req_method := "POST";
     req_headers := ("content-type", "application/json") :: hdrs;
     req_url_path := path; req_referer_path := None;
     req_json := Some data; req_form := None; req_text_params := None |}.

Definition db_env : env := {| env_leads_db := true; env_webhook := None |}.
Definition ok_world : world := {| w_insert_ok := true; w_fetch_ok := true; w_now := "t" |}.

Definition scenario_req : request :=
  json_post "/api/lead" []
    (JObj [("email", JStr "a@b.com"); ("consent", JStr "on"); ("name", JStr "Jo")]).


Definition hook_env : env :=
  {| env_leads_db := true; env_webhook := Some "https://hook.example/lead" |}.

Definition net_error_world : world :=
  {| w_insert_ok := true; w_fetch_ok := false; w_now := "t" |}.

(** An address of 304 characters that stays valid when cut to 200. *)
Definition long_email : string :=
  "A@B." ++ String.concat "" (repeat "c" 300).



Definition upper_req : request :=
  json_post "/api/lead" [] (JObj [("email", JStr "  Jo@Example.COM "); ("consent", JStr "on")]).


Definition bad_json_req : request :=
  {| req_method := "POST"; req_headers := [("content-type", "application/json")];
     req_url_path := "/api/lead"; req_referer_path := None;
     req_json := None; req_form := None; req_text_params := None |}.


Definition ref_req (given : string) : request :=
  {| req_method := "POST";
     req_headers := [("content-type", "application/json");
                     ("referer", "https://audituniversepro.com/contact")];
     req_url_path := "/api/lead"; req_referer_path := Some "/contact";
     req_json := Some (JObj [("email", JStr "a@b.com"); ("consent", JStr "on");
                             ("source_path", JStr given)]);
     req_form := None; req_text_params := None |}.

Definition blank_hp_req : request :=
  json_post "/api/lead" []
    (JObj [("email", JStr "a@b.com"); ("consent", JStr "on"); ("company", JStr "  ");
           ("hp", JStr " ")]).

(** ** Removing the honeypot fields from a request body *)

Definition is_hp_key (k : string) : bool := String.eqb k "company" || String.eqb k "hp".

Definition strip_fields (fs : list (string * jval)) : list (string * jval) :=
  filter (fun kv => negb (is_hp_key (fst kv))) fs.

Definition strip_entries (es : list (string * string)) : list (string * string) :=
  filter (fun kv => negb (is_hp_key (fst kv))) es.

Definition strip_json (v : jval) : jval :=
  match v with JObj fs => JObj (strip_fields fs) | _ => v end.

(** The same request with every [company] and [hp] field removed from its
    body, whichever parser reads it. *)
Definition strip_hp (req : request) : request :=
  {| req_method := req_method req; req_headers := req_headers req;
     req_url_path := req_url_path req; req_referer_path := req_referer_path req;
     req_json := option_map strip_json (req_json req);
     req_form := option_map strip_entries (req_form req);
     req_text_params := option_map strip_entries (req_text_params req) |}.

(** Every [company] and [hp] field of the body, under each parser, is a
    string of whitespace only. *)
Definition honeypot_blank (req : request) : Prop :=
  (forall fs, req_json req = Some (JObj fs) ->
     forall k v, In (k, v) fs -> is_hp_key k = true -> exists s, v = JStr s /\ js_trim s = "") /\
  (forall es, req_form req = Some es ->
     forall k s, In (k, s) es -> is_hp_key k = true -> js_trim s = "") /\
  (forall es, req_text_params req = Some es ->
     forall k s, In (k, s) es -> is_hp_key k = true -> js_trim s = "").

(** A value that reads as empty text once trimmed: absent, [null], or a
    whitespace-only string. *)
Definition blank_val (v : jval) : Prop :=
  v = JUndef \/ v = JNull \/ exists s, v = JStr s /\ js_trim s = "".

(** The value [Object.fromEntries] keeps for [k]: the last one, else [d]. *)
Fixpoint last_or (k : string) (es : list (string * string)) (d : jval) : jval :=
  match es with
  | [] => d
  | (k', v) :: es' => last_or k es' (if String.eqb k k' then JStr v else d)
  end.

(** ** Vocabulary for further properties *)

(** Every code unit of [s] satisfies [f]. *)
Fixpoint all_chars (f : ascii -> bool) (s : string) : bool :=
  match s with
  | EmptyString => true
  | String c s' => f c && all_chars f s'
  end.

(** A run of one or more code units of the class [[^\s@]]. *)
Definition email_part (s : string) : bool :=
  negb (String.eqb s "") && all_chars (atom_ok NotSpaceOrAt) s.

(** An email column: a non-empty text matching the pattern of [isValidEmail]. *)
Definition valid_email_col (v : sql_val) : Prop :=
  exists s, v = SText s /\ s <> "" /\ isValidEmail s = true.

(** The three shapes a handler's effect trace can take. *)
Definition trace_shape (tr : list effect) : Prop :=
  tr = [] \/ (exists r, tr = [EInsert r]) \/ (exists r u p, tr = [EInsert r; EFetch u p]).

(** [true] when the trace records a webhook call. *)
Definition has_fetch (tr : list effect) : bool :=
  existsb (fun ef => match ef with EFetch _ _ => true | _ => false end) tr.


(** The character class of a regex piece. *)
Definition piece_atom (p : rx_piece) : rx_atom :=
  match p with One a | Plus a => a end.


(** A text column holding at most [n] code units ([NULL] and numbers are
    not text). *)
Definition text_within (n : nat) (v : sql_val) : Prop :=
  match v with SText s => (String.length s <= n)%nat | _ => True end.

(** A column bound to [NULL] or to a non-empty text. *)
Definition null_or_nonempty (v : sql_val) : Prop :=
  v = SNull \/ exists s, v = SText s /\ s <> "".

(** The same outcomes of external calls, with the webhook [fetch] resolving
    ([true]) or rejecting ([false]). *)
Definition with_fetch (w : world) (b : bool) : world :=
  {| w_insert_ok := w_insert_ok w; w_fetch_ok := b; w_now := w_now w |}.

(** A multipart request carrying the form field [email] twice. *)
Definition dup_req : request :=
  {| req_method := "POST";
     req_headers := [("content-type", "multipart/form-data; boundary=x")];
     req_url_path := "/api/lead"; req_referer_path := None; req_json := None;
     req_form := Some [("email", "a@b.co"); ("email", "c@d.co")];
     req_text_params := None |}.

(** A request with method GET. *)
Definition get_req : request :=
  {| req_method := "GET"; req_headers := []; req_url_path := "/api/lead";
     req_referer_path := None; req_json := None; req_form := None;
     req_text_params := None |}.

(** The D1 insert rejects. *)
Definition insert_fail_world : world :=
  {| w_insert_ok := false; w_fetch_ok := true; w_now := "t" |}.

(** ** Examples *)

Example isValidEmail_ex1 : isValidEmail "a@b.com" = true. Proof. reflexivity. Qed.
Example isValidEmail_ex2 : isValidEmail "not-an-email" = false. Proof. reflexivity. Qed.
Example isValidEmail_ex3 : isValidEmail "a@b." = false. Proof. reflexivity. Qed.
Example isValidEmail_ex4 : isValidEmail "a@b.c.d" = true. Proof. reflexivity. Qed.
Example js_trim_ex : js_trim "  a b  " = "a b". Proof. reflexivity. Qed.
Example js_String_ex : js_String (JArr [JNum 12; JNull; JNum (-3)]) = "12,,-3". Proof. reflexivity. Qed.
Example lower_ex : toLowerCase "A@B.COM" = "a@b.com". Proof. reflexivity. Qed.
Example endsWith_ex : endsWith "https://x.pages.dev" ".pages.dev" = true. Proof. reflexivity. Qed.

Example scenario_A :
  run (LeadA.onRequest scenario_req db_env ok_world) =
  (RVal (Reply {| resp_status := 200;
                  resp_headers := [("content-type", "application/json; charset=utf-8");
                                   ("cache-control", "no-store");
                                   ("access-control-allow-methods", "POST, OPTIONS");
                                   ("access-control-allow-headers", "Content-Type");
                                   ("access-control-max-age", "86400")];
                  resp_body := Some (ok_body true) |}),
   [EInsert {| row_name := SText "Jo"; row_email := SText "a@b.com"; row_website := SNull;
               row_message := SNull; row_consent := SInt 1; row_source_path := SText "/api/lead";
               row_user_agent := SNull |}]).
Proof. reflexivity. Qed.

Example scenario_B :
  fst (run (LeadB.onRequest scenario_req db_env ok_world)) =
  RVal (Reply {| resp_status := 200; resp_headers :=
    ("content-type", "application/json; charset=utf-8") :: LeadB.corsHeaders "";
    resp_body := Some (ok_body true) |}).
Proof. reflexivity. Qed.

Example scenario_C :
  snd (run (Part000.onRequest scenario_req db_env ok_world)) =
  [EInsert {| row_name := SText "Jo"; row_email := SText "a@b.com"; row_website := SText "";
              row_message := SText ""; row_consent := SInt 1; row_source_path := SText "/api/lead";
              row_user_agent := SText "" |}].
Proof. reflexivity. Qed.

(** ** General lemmas *)

Lemma substring_0_all (s : string) (n : nat) :
  (String.length s <= n)%nat -> substring 0 n s = s.
Proof.
  revert n; induction s as [|c s IH]; intros n Hn; destruct n; simpl in *;
    try reflexivity; try lia.
  rewrite IH by lia. reflexivity.
Qed.


Lemma js_trim_empty : js_trim "" = "".
Proof. reflexivity. Qed.

Lemma LeadA_normalizeString_eq (v : jval) (n : nat) :
  LeadA.normalizeString v n = slice0 n (trimmed_text v).
Proof.
  unfold LeadA.normalizeString, trimmed_text, slice0.
  destruct (is_nullish v); [destruct n; reflexivity|].
  destruct (n <? String.length _)%nat eqn:E; [reflexivity|].
  apply Nat.ltb_ge in E. symmetry; apply substring_0_all; lia.
Qed.

Lemma Part000_normalizeStr_eq (v : jval) (n : nat) :
  Part000.normalizeStr v n = slice0 n (trimmed_text v).
Proof.
  unfold Part000.normalizeStr, trimmed_text, slice0.
  destruct (is_nullish v); [destruct n; reflexivity|].
  destruct (n <? String.length _)%nat eqn:E; [reflexivity|].
  apply Nat.ltb_ge in E. symmetry; apply substring_0_all; lia.
Qed.

Lemma LeadB_str_eq (v : jval) : LeadB.str v = trimmed_text v.
Proof. reflexivity. Qed.

Lemma eqb_neq_false (s t : string) : s <> t -> String.eqb s t = false.
Proof. intro H; apply String.eqb_neq; exact H. Qed.

(** Select the POST branch of a handler. *)
Ltac post_branch Hm :=
  rewrite Hm;
  change (String.eqb "POST" "OPTIONS") with false;
  change (String.eqb "POST" "POST") with true;
  cbn [negb].

Ltac run_M :=
  cbv beta iota zeta delta [run negb bind ret try_catch of_option reply_of throw
       emit d1_insert fetch new_Response LeadA.jsonResponse LeadB.json
       Part000.jsonResponse Part000.corsPreflight getprop].

Ltac run_M_in H :=
  cbv beta iota zeta delta [run negb bind ret try_catch of_option reply_of throw
       emit d1_insert fetch new_Response LeadA.jsonResponse LeadB.json
       Part000.jsonResponse Part000.corsPreflight getprop] in H.

(** Case analysis on every branch of a handler run recorded in [H]. *)
Ltac split_run H :=
  cbv beta iota zeta delta [Z.leb Z.eqb Z.compare Pos.compare
    Pos.compare_cont andb orb] in H;
  repeat (cbv beta iota zeta in H;
          match type of H with
          | context [if ?b then _ else _] => destruct b eqn:?
          | context [match ?o with Some _ => _ | None => _ end] => destruct o eqn:?
          end);
  cbv beta iota zeta in H; injection H as <- <-.

(** The row a handler binds to its insert, in terms of the parsed body. *)
Lemma LeadA_inserted_row (req : request) (e : env) (w : world) res tr r raw :
  LeadA.readBody req = Some raw ->
  run (LeadA.onRequest req e w) = (res, tr) -> In (EInsert r) tr ->
  r = {| row_name := or_null (slice0 120 (trimmed_text (lookup "name" raw)));
         row_email := SText (toLowerCase (slice0 200 (trimmed_text (lookup "email" raw))));
         row_website := or_null (slice0 300 (trimmed_text (lookup "website" raw)));
         row_message := or_null (slice0 2000 (trimmed_text (lookup "message" raw)));
         row_consent := SInt (LeadA.consent_of (lookup "consent" raw));
         row_source_path :=
           or_null (let sp := slice0 300 (trimmed_text (lookup "source_path" raw)) in
                    if String.eqb sp "" then req_url_path req else sp);
         row_user_agent := or_null (slice0 300 (trimmed_text (header_val "user-agent" req))) |}.
Proof.
  intros Hrb H Hin. unfold run, LeadA.onRequest in H. rewrite Hrb in H. run_M_in H.
  split_run H.
  all: simpl in Hin; decompose [or] Hin; try contradiction; try discriminate.
  all: match goal with Heq : EInsert _ = EInsert _ |- _ => injection Heq as <- end.
  all: rewrite !LeadA_normalizeString_eq in *; cbv zeta.
  all: try (match goal with Hb : (slice0 300 _ =? "")%string = _ |- _ => rewrite Hb end).
  all: reflexivity.
Qed.

Lemma LeadB_inserted_row (req : request) (e : env) (w : world) res tr r fs :
  LeadB.parseBody req = JObj fs ->
  run (LeadB.onRequest req e w) = (res, tr) -> In (EInsert r) tr ->
  r = {| row_name := or_null (slice0 120 (trimmed_text (lookup "name" fs)));
         row_email := SText (slice0 200 (trimmed_text (lookup "email" fs)));
         row_website := or_null (slice0 300 (trimmed_text (lookup "website" fs)));
         row_message := or_null (slice0 3000 (trimmed_text (lookup "message" fs)));
         row_consent := SInt (LeadB.consent_of (lookup "consent" fs));
         row_source_path := or_null (slice0 500 (trimmed_text (lookup "source_path" fs)));
         row_user_agent := or_null (slice0 400 (trimmed_text (header_val "user-agent" req))) |}
  /\ LeadB.consent_of (lookup "consent" fs) <> 0.
Proof.
  intros Hp H Hin. unfold run, LeadB.onRequest in H. rewrite Hp in H. run_M_in H.
  split_run H.
  all: simpl in Hin; decompose [or] Hin; try contradiction; try discriminate.
  all: match goal with Heq : EInsert _ = EInsert _ |- _ => injection Heq as <- end.
  all: split; [reflexivity|]; intro Hz.
  all: match goal with Hc : context [LeadB.consent_of _] |- _ =>
         rewrite Hz in Hc; cbn in Hc; discriminate Hc end.
Qed.

Lemma Part000_inserted_row (req : request) (e : env) (w : world) res tr r fs :
  Part000.readBody req = Some (JObj fs) ->
  run (Part000.onRequest req e w) = (res, tr) -> In (EInsert r) tr ->
  r = {| row_name := SText (slice0 200 (trimmed_text (lookup "name" fs)));
         row_email := SText (toLowerCase (slice0 200 (trimmed_text (lookup "email" fs))));
         row_website := SText (slice0 500 (trimmed_text (lookup "website" fs)));
         row_message := SText (slice0 4000 (trimmed_text (lookup "message" fs)));
         row_consent := SInt 1;
         row_source_path := SText (Part000.resolve_source_path req
                                     (slice0 500 (trimmed_text (lookup "source_path" fs))));
         row_user_agent := SText (slice0 500 (js_trim (header_or_empty "user-agent" req))) |}
  /\ Part000.consent_of (lookup "consent" fs) = true.
Proof.
  intros Hrb H Hin. unfold run, Part000.onRequest in H. rewrite Hrb in H. run_M_in H.
  split_run H.
  all: simpl in Hin; decompose [or] Hin; try contradiction; try discriminate.
  all: match goal with Heq : EInsert _ = EInsert _ |- _ => injection Heq as <- end.
  all: rewrite !Part000_normalizeStr_eq.
  all: split; [reflexivity|].
  all: match goal with Hc : context [Part000.consent_of ?x] |- _ =>
         destruct (Part000.consent_of x); [reflexivity | discriminate Hc] end.
Qed.

(** ** Lemmas on consent and on honeypot fields *)


Lemma lookup_strip_fields (k : string) (fs : list (string * jval)) :
  is_hp_key k = false -> lookup k (strip_fields fs) = lookup k fs.
Proof.
  intro Hk. induction fs as [|[k' v] fs IH]; [reflexivity|].
  unfold strip_fields in *; simpl.
  destruct (is_hp_key k') eqn:Hk'; simpl.
  - destruct (String.eqb_spec k k') as [->|]; [congruence|]. exact IH.
  - rewrite IH. reflexivity.
Qed.

Lemma lookup_strip_fields_hp (k : string) (fs : list (string * jval)) :
  is_hp_key k = true -> lookup k (strip_fields fs) = JUndef.
Proof.
  intro Hk. induction fs as [|[k' v] fs IH]; [reflexivity|].
  unfold strip_fields in *; simpl.
  destruct (is_hp_key k') eqn:Hk'; simpl; [exact IH|].
  destruct (String.eqb_spec k k') as [->|]; [congruence|]. exact IH.
Qed.

Lemma form_get_strip (k : string) (es : list (string * string)) :
  is_hp_key k = false -> form_get k (strip_entries es) = form_get k es.
Proof.
  intro Hk. induction es as [|[k' v] es IH]; [reflexivity|].
  unfold strip_entries in *; simpl.
  destruct (is_hp_key k') eqn:Hk'; simpl.
  - destruct (String.eqb_spec k k') as [->|]; [congruence|]. exact IH.
  - rewrite IH. reflexivity.
Qed.

Lemma form_get_strip_hp (k : string) (es : list (string * string)) :
  is_hp_key k = true -> form_get k (strip_entries es) = JNull.
Proof.
  intro Hk. induction es as [|[k' v] es IH]; [reflexivity|].
  unfold strip_entries in *; simpl.
  destruct (is_hp_key k') eqn:Hk'; simpl; [exact IH|].
  destruct (String.eqb_spec k k') as [->|]; [congruence|]. exact IH.
Qed.

Lemma lookup_in (k : string) (fs : list (string * jval)) :
  lookup k fs = JUndef \/ In (k, lookup k fs) fs.
Proof.
  induction fs as [|[k' v] fs IH]; [left; reflexivity|]. simpl.
  destruct (String.eqb_spec k k') as [->|]; [right; left; reflexivity|].
  destruct IH as [H|H]; [left; exact H | right; right; exact H].
Qed.

Lemma form_get_in (k : string) (es : list (string * string)) :
  form_get k es = JNull \/ exists s, form_get k es = JStr s /\ In (k, s) es.
Proof.
  induction es as [|[k' v] es IH]; [left; reflexivity|]. simpl.
  destruct (String.eqb_spec k k') as [->|]; [right; exists v; split; [reflexivity | left; reflexivity]|].
  destruct IH as [H|[s [H1 H2]]]; [left; exact H | right; exists s; split; [exact H1 | right; exact H2]].
Qed.

Lemma lookup_obj_set (k k' : string) (v : jval) (fs : list (string * jval)) :
  lookup k (obj_set k' v fs) = if String.eqb k k' then v else lookup k fs.
Proof.
  induction fs as [|[k'' v''] fs IH]; simpl.
  - destruct (String.eqb k k'); reflexivity.
  - destruct (String.eqb_spec k' k'') as [->|Hne]; simpl.
    + destruct (String.eqb k k''); reflexivity.
    + rewrite IH. destruct (String.eqb_spec k k'') as [->|]; [|reflexivity].
      rewrite (eqb_neq_false k'' k') by congruence. reflexivity.
Qed.

Lemma lookup_fold_obj_set (k : string) (es : list (string * string)) acc :
  lookup k (fold_left (fun acc '(k, v) => obj_set k (JStr v) acc) es acc) =
  last_or k es (lookup k acc).
Proof.
  revert acc; induction es as [|[k' v] es IH]; intro acc; [reflexivity|].
  simpl. rewrite IH, lookup_obj_set. reflexivity.
Qed.

Lemma lookup_fromEntries (k : string) (es : list (string * string)) :
  lookup k (fromEntries es) = last_or k es JUndef.
Proof. apply lookup_fold_obj_set. Qed.

Lemma last_or_in (k : string) (es : list (string * string)) (d : jval) :
  last_or k es d = d \/ exists s, last_or k es d = JStr s /\ In (k, s) es.
Proof.
  revert d; induction es as [|[k' v] es IH]; intro d; [left; reflexivity|]. simpl.
  destruct (String.eqb_spec k k') as [->|].
  - destruct (IH (JStr v)) as [H|[s [H1 H2]]].
    + right; exists v; split; [exact H | left; reflexivity].
    + right; exists s; split; [exact H1 | right; exact H2].
  - destruct (IH d) as [H|[s [H1 H2]]]; [left; exact H | right; exists s; split; [exact H1 | right; exact H2]].
Qed.

Lemma strip_obj_set (k : string) (v : jval) (fs : list (string * jval)) :
  strip_fields (obj_set k v fs) =
  if is_hp_key k then strip_fields fs else obj_set k v (strip_fields fs).
Proof.
  induction fs as [|[k' v'] fs IH]; unfold strip_fields in *; simpl.
  - destruct (is_hp_key k); reflexivity.
  - destruct (String.eqb_spec k k') as [->|Hne]; simpl.
    + destruct (is_hp_key k'); simpl; [reflexivity|].
      rewrite String.eqb_refl. reflexivity.
    + rewrite IH. destruct (is_hp_key k') eqn:Hk'; simpl;
        destruct (is_hp_key k) eqn:Hk; try reflexivity.
      rewrite (eqb_neq_false k k' Hne). reflexivity.
Qed.

Lemma strip_fromEntries (es : list (string * string)) :
  strip_fields (fromEntries es) = fromEntries (strip_entries es).
Proof.
  unfold fromEntries.
  assert (H : forall acc, strip_fields (fold_left (fun acc '(k, v) => obj_set k (JStr v) acc) es acc)
              = fold_left (fun acc '(k, v) => obj_set k (JStr v) acc) (strip_entries es)
                  (strip_fields acc)).
  { induction es as [|[k v] es IH]; intro acc; [reflexivity|].
    unfold strip_entries; simpl. rewrite IH, strip_obj_set.
    destruct (is_hp_key k); reflexivity. }
  apply H.
Qed.

Lemma blank_normalizeString (v : jval) (n : nat) :
  blank_val v -> LeadA.normalizeString v n = "".
Proof.
  intros [->|[->|[s [-> Hs]]]]; [destruct n; reflexivity .. |].
  rewrite LeadA_normalizeString_eq. unfold trimmed_text. simpl. rewrite Hs.
  destruct n; reflexivity.
Qed.

Lemma blank_str_hp (hv cv : jval) :
  blank_val hv -> blank_val cv -> LeadB.str (if truthy hv then hv else cv) = "".
Proof.
  intros Hh Hc.
  destruct (truthy hv) eqn:T.
  - destruct Hh as [->|[->|[s [-> Hs]]]]; [discriminate | discriminate | exact Hs].
  - destruct Hc as [->|[->|[s [-> Hs]]]]; [reflexivity | reflexivity | exact Hs].
Qed.

Lemma LeadB_parseBody_strip (req : request) :
  LeadB.parseBody (strip_hp req) = strip_json (LeadB.parseBody req).
Proof.
  unfold LeadB.parseBody, strip_hp. cbn [req_json req_form req_text_params].
  change (header_or_empty "content-type" {| req_method := _ |})
    with (header_or_empty "content-type" req).
  destruct (req_text_params req) as [es|]; destruct (req_json req) as [d|];
    destruct (req_form req) as [fs|]; cbn [option_map strip_json];
    repeat match goal with |- context [if ?b then _ else _] => destruct b end;
    cbn [strip_json]; rewrite ?strip_fromEntries; reflexivity.
Qed.

Lemma fromEntries_blank (es : list (string * string)) (k : string) :
  (forall k s, In (k, s) es -> is_hp_key k = true -> js_trim s = "") ->
  is_hp_key k = true -> blank_val (lookup k (fromEntries es)).
Proof.
  intros H Hk. rewrite lookup_fromEntries.
  destruct (last_or_in k es JUndef) as [E|[s [E Hin]]]; rewrite E.
  - left; reflexivity.
  - right; right; exists s; split; [reflexivity | exact (H k s Hin Hk)].
Qed.

Lemma LeadB_parseBody_blank (req : request) (fs : list (string * jval)) (k : string) :
  honeypot_blank req -> LeadB.parseBody req = JObj fs -> is_hp_key k = true ->
  blank_val (lookup k fs).
Proof.
  intros [Hj [Hf Ht]] Hp Hk. unfold LeadB.parseBody in Hp.
  assert (Hpar : forall fs', match req_text_params req with
                             | Some es => JObj (fromEntries es) | None => JObj [] end = JObj fs' ->
                             blank_val (lookup k fs')).
  { intros fs' E. destruct (req_text_params req) as [es|] eqn:Es; injection E as <-.
    - exact (fromEntries_blank es k (Ht es eq_refl) Hk).
    - left; reflexivity. }
  repeat match type of Hp with context [if ?b then _ else _] => destruct b end;
    try (apply Hpar; exact Hp).
  - destruct (req_json req) as [d|] eqn:Ed; [subst d|injection Hp as <-; left; reflexivity].
    destruct (lookup_in k fs) as [E|Hin]; [rewrite E; left; reflexivity|].
    destruct (Hj fs eq_refl k _ Hin Hk) as [s [E Hs]].
    right; right; exists s; split; [exact E | exact Hs].
  - destruct (req_form req) as [es|] eqn:Es; injection Hp as <-; [|left; reflexivity].
    exact (fromEntries_blank es k (Hf es eq_refl) Hk).
Qed.

Lemma LeadA_readBody_strip (req : request) :
  honeypot_blank req ->
  (LeadA.readBody req = None /\ LeadA.readBody (strip_hp req) = None) \/
  exists raw raw', LeadA.readBody req = Some raw /\ LeadA.readBody (strip_hp req) = Some raw' /\
    (forall k, is_hp_key k = false -> lookup k raw' = lookup k raw) /\
    blank_val (lookup "company" raw) /\ blank_val (lookup "company" raw').
Proof.
  intros [Hj [Hf _]]. unfold LeadA.readBody, strip_hp. cbn [req_json req_form].
  change (header_or_empty "content-type" {| req_method := _ |})
    with (header_or_empty "content-type" req).
  destruct (includes _ _).
  - destruct (req_json req) as [d|] eqn:Ed; cbn [option_map]; [|left; split; reflexivity].
    destruct d as [| | | | | |fs]; cbn [strip_json getprop];
      try (left; split; reflexivity);
      try (right; eexists; eexists; split; [reflexivity|]; split; [reflexivity|];
           split; [reflexivity|]; split; left; reflexivity).
    right; eexists; eexists; split; [reflexivity|]; split; [reflexivity|].
    split; [|split].
    + intros k Hk. unfold is_hp_key in Hk. apply orb_false_iff in Hk as [Hc _].
      unfold LeadA.body_keys; cbn [map lookup getprop].
      rewrite !(lookup_strip_fields _ fs) by reflexivity.
      rewrite Hc. reflexivity.
    + unfold LeadA.body_keys; cbn [map lookup getprop]. change (String.eqb "company" "company") with true.
      repeat match goal with |- context [String.eqb "company" ?s] =>
        change (String.eqb "company" s) with false end.
      cbv iota.
      destruct (lookup_in "company" fs) as [E|Hin]; [rewrite E; left; reflexivity|].
      destruct (Hj fs eq_refl "company" _ Hin eq_refl) as [s [E Hs]].
      right; right; exists s; split; [exact E | exact Hs].
    + unfold LeadA.body_keys; cbn [map lookup getprop]. change (String.eqb "company" "company") with true.
      repeat match goal with |- context [String.eqb "company" ?s] =>
        change (String.eqb "company" s) with false end.
      cbv iota. rewrite (lookup_strip_fields_hp "company") by reflexivity.
      left; reflexivity.
  - destruct (req_form req) as [es|] eqn:Es; cbn [option_map]; [|left; split; reflexivity].
    right; eexists; eexists; split; [reflexivity|]; split; [reflexivity|].
    split; [|split].
    + intros k Hk. unfold is_hp_key in Hk. apply orb_false_iff in Hk as [Hc _].
      unfold LeadA.body_keys; cbn [map lookup getprop].
      rewrite !(form_get_strip _ es) by reflexivity.
      rewrite Hc. reflexivity.
    + unfold LeadA.body_keys; cbn [map lookup getprop]. change (String.eqb "company" "company") with true.
      repeat match goal with |- context [String.eqb "company" ?s] =>
        change (String.eqb "company" s) with false end.
      cbv iota.
      destruct (form_get_in "company" es) as [E|[s [E Hin]]]; rewrite E;
        [right; left; reflexivity|].
      right; right; exists s; split; [reflexivity | exact (Hf es eq_refl "company" s Hin eq_refl)].
    + unfold LeadA.body_keys; cbn [map lookup getprop]. change (String.eqb "company" "company") with true.
      repeat match goal with |- context [String.eqb "company" ?s] =>
        change (String.eqb "company" s) with false end.
      cbv iota. rewrite (form_get_strip_hp "company") by reflexivity.
      right; left; reflexivity.
Qed.

Lemma bind_some {A B} (x : A) (k : A -> M B) : bind (of_option (Some x)) k = k x.
Proof. reflexivity. Qed.

Lemma LeadA_strip_hp_same (req : request) (e : env) (w : world) :
  honeypot_blank req -> LeadA.onRequest req e w = LeadA.onRequest (strip_hp req) e w.
Proof.
  intro H. unfold LeadA.onRequest.
  change (LeadA.pickAllowedOrigin (strip_hp req)) with (LeadA.pickAllowedOrigin req).
  change (req_method (strip_hp req)) with (req_method req).
  change (req_url_path (strip_hp req)) with (req_url_path req).
  change (header_val "user-agent" (strip_hp req)) with (header_val "user-agent" req).
  destruct (String.eqb (req_method req) "OPTIONS"); [reflexivity|].
  destruct (negb (String.eqb (req_method req) "POST")); [reflexivity|].
  destruct (negb (env_leads_db e)); [reflexivity|].
  destruct (LeadA_readBody_strip req H) as [[E1 E2]|(raw & raw' & E1 & E2 & Hk & Hb & Hb')];
    rewrite E1, E2; [reflexivity|].
  rewrite !bind_some. cbv beta zeta.
  rewrite (blank_normalizeString _ _ Hb), (blank_normalizeString _ _ Hb').
  rewrite !Hk by reflexivity. reflexivity.
Qed.

Lemma LeadB_strip_hp_same (req : request) (e : env) (w : world) :
  honeypot_blank req -> LeadB.onRequest req e w = LeadB.onRequest (strip_hp req) e w.
Proof.
  intro H. unfold LeadB.onRequest.
  change (header_or_empty "origin" (strip_hp req)) with (header_or_empty "origin" req).
  change (req_method (strip_hp req)) with (req_method req).
  change (header_val "user-agent" (strip_hp req)) with (header_val "user-agent" req).
  change (header_get "cf-connecting-ip" (strip_hp req)) with (header_get "cf-connecting-ip" req).
  change (header_or_empty "x-forwarded-for" (strip_hp req))
    with (header_or_empty "x-forwarded-for" req).
  destruct (String.eqb (req_method req) "OPTIONS"); [reflexivity|].
  destruct (negb (String.eqb (req_method req) "POST")); [reflexivity|].
  cbv zeta. rewrite LeadB_parseBody_strip.
  destruct (LeadB.parseBody req) as [| | | | | |fs] eqn:Ep; cbn [strip_json]; try reflexivity.
  cbn [getprop]. repeat (rewrite bind_some; cbv beta).
  rewrite (lookup_strip_fields_hp "hp"), (lookup_strip_fields_hp "company") by reflexivity.
  change (LeadB.str (if truthy JUndef then JUndef else JUndef)) with "".
  rewrite (blank_str_hp _ _ (LeadB_parseBody_blank req fs "hp" H Ep eq_refl)
                            (LeadB_parseBody_blank req fs "company" H Ep eq_refl)).
  rewrite !(lookup_strip_fields _ fs) by reflexivity. reflexivity.
Qed.

(** ** Lemmas for further properties *)

Lemma rx_match_nil (s : string) : rx_match s [] = true <-> s = "".
Proof. destruct s; simpl; split; intro H; congruence. Qed.

Lemma rx_match_one (s : string) (a : rx_atom) (ps : list rx_piece) :
  rx_match s (One a :: ps) = true <->
  exists c s', s = String c s' /\ atom_ok a c = true /\ rx_match s' ps = true.
Proof.
  destruct s as [|c s']; simpl.
  - split; [discriminate | intros (c & s' & H & _); discriminate H].
  - split.
    + intro H. destruct (atom_ok a c) eqn:E; [|discriminate H]. eauto.
    + intros (c0 & s0 & E & Ha & Hm). injection E as <- <-. rewrite Ha. exact Hm.
Qed.

Lemma rx_match_plus (s : string) (a : rx_atom) (ps : list rx_piece) :
  rx_match s (Plus a :: ps) = true <->
  exists p q, p <> "" /\ all_chars (atom_ok a) p = true /\ s = p ++ q /\ rx_match q ps = true.
Proof.
  induction s as [|c s IH]; simpl.
  - split; [discriminate|].
    intros (p & q & Hp & _ & E & _). destruct p; [congruence | discriminate E].
  - split.
    + intro H. destruct (atom_ok a c) eqn:Ea; [|discriminate H].
      destruct (rx_match s ps) eqn:Em.
      * exists (String c ""), s. simpl. rewrite Ea. repeat split; [discriminate | exact Em].
      * apply IH in H as (p & q & Hp & Hall & -> & Hq).
        exists (String c p), q. simpl. rewrite Ea, Hall. repeat split; [discriminate | exact Hq].
    + intros (p & q & Hp & Hall & E & Hq).
      destruct p as [|c' p]; [congruence|]. simpl in Hall, E. injection E as <- Es.
      destruct (atom_ok a c) eqn:Ea; [|discriminate Hall]. simpl in Hall.
      destruct (rx_match s ps) eqn:Em; [reflexivity|].
      destruct p as [|c'' p'].
      * simpl in Es. subst s. congruence.
      * apply IH. exists (String c'' p'), q. repeat split; [discriminate | exact Hall | exact Es | exact Hq].
Qed.

Lemma atom_ok_lit (d c : ascii) : atom_ok (Lit d) c = true <-> c = d.
Proof. simpl. apply Ascii.eqb_eq. Qed.

Lemma email_part_iff (p : string) :
  email_part p = true <-> p <> "" /\ all_chars (atom_ok NotSpaceOrAt) p = true.
Proof.
  unfold email_part. rewrite andb_true_iff, negb_true_iff, String.eqb_neq. reflexivity.
Qed.

Lemma string_app_empty_r (a : string) : a ++ "" = a.
Proof. induction a; simpl; [reflexivity | rewrite IHa; reflexivity]. Qed.

Lemma rx_match_lower (s : string) (ps : list rx_piece) :
  Forall (fun p => forall c, atom_ok (piece_atom p) (lower_char c) = atom_ok (piece_atom p) c) ps ->
  rx_match (toLowerCase s) ps = rx_match s ps.
Proof.
  revert ps; induction s as [|c s IH]; intros ps Hps; [reflexivity|].
  destruct ps as [|[a|a] ps]; [reflexivity| |]; inversion Hps as [|? ? Ha Hps']; subst;
    simpl in Ha |- *; rewrite Ha.
  - destruct (atom_ok a c); [apply IH; exact Hps' | reflexivity].
  - destruct (atom_ok a c); [|reflexivity].
    rewrite (IH ps Hps'), (IH (Plus a :: ps)) by (constructor; assumption). reflexivity.
Qed.

Lemma lower_char_not_space_or_at (c : ascii) :
  atom_ok NotSpaceOrAt (lower_char c) = atom_ok NotSpaceOrAt c.
Proof. destruct c as [[] [] [] [] [] [] [] []]; reflexivity. Qed.

Lemma lower_char_lit (c : ascii) :
  atom_ok (Lit "@") (lower_char c) = atom_ok (Lit "@") c /\
  atom_ok (Lit ".") (lower_char c) = atom_ok (Lit ".") c.
Proof. destruct c as [[] [] [] [] [] [] [] []]; split; reflexivity. Qed.


Lemma slice0_length (n : nat) (s : string) : (String.length (slice0 n s) <= n)%nat.
Proof.
  unfold slice0. revert n; induction s as [|c s IH]; intro n; destruct n; simpl; try lia.
  specialize (IH n). lia.
Qed.

Lemma slice0_prefix (n : nat) (s : string) : prefix (slice0 n s) s = true.
Proof.
  unfold slice0. revert n; induction s as [|c s IH]; intro n; destruct n; simpl;
    try reflexivity.
  destruct (ascii_dec c c) as [_|Hc]; [apply IH | congruence].
Qed.



Ltac split_run_fast H :=
  cbv beta iota zeta delta [Z.leb Z.eqb Z.compare Pos.compare Pos.eqb
    Pos.compare_cont andb orb] in H;
  repeat (cbv beta iota zeta in H;
          match type of H with
          | context [if ?b then _ else _] => destruct b eqn:?
          | context [match ?o with Some _ => _ | None => _ end] => destruct o eqn:?
          end);
  cbv beta iota zeta in H; injection H as <- <-.

Lemma if_guard (a v : bool) :
  (if a then true else if v then false else true) = false -> a = false /\ v = true.
Proof. destruct a, v; intro H; try discriminate H; split; reflexivity. Qed.

Lemma negb_guard (v : bool) : (if v then false else true) = false -> v = true.
Proof. destruct v; intro H; [reflexivity | discriminate H]. Qed.

Ltac insert_email_guard :=
  match goal with
  | Hx : (if _ then true else if isValidEmail _ then false else true) = false |- _ =>
      destruct (if_guard _ _ Hx) as [?Ee ?Ev]
  | Hx : (if isValidEmail _ then false else true) = false |- _ =>
      pose proof (negb_guard _ Hx) as ?Ev
  end;
  eexists; split; [reflexivity|];
  split; [apply String.eqb_neq; eassumption | eassumption].

Ltac in_cases Hin :=
  simpl in Hin; try contradiction Hin; decompose [or] Hin; try contradiction; try discriminate.

Lemma LeadA_run_facts (req : request) (e : env) (w : world) res tr raw :
  LeadA.readBody req = Some raw ->
  run (LeadA.onRequest req e w) = (res, tr) ->
  trace_shape tr /\
  (forall r, In (EInsert r) tr -> valid_email_col (row_email r)) /\
  (w_insert_ok w = false ->
     (forall u p, ~ In (EFetch u p) tr) /\ (tr <> [] -> res = RVal TruncatedCatch)) /\
  (forall u p, In (EFetch u p) tr ->
     exists r fs s, In (EInsert r) tr /\ env_webhook e = Some u /\ p = JObj fs /\
                    lookup "email" fs = JStr s /\ row_email r = SText s).
Proof.
  intros Hrb H. unfold run, LeadA.onRequest in H. rewrite Hrb in H. run_M_in H.
  split_run_fast H.
  all: split; [unfold trace_shape; first [left; reflexivity | right; left; eexists; reflexivity
                    | right; right; do 3 eexists; reflexivity] |].
  all: split; [intros ? Hin; in_cases Hin;
              match goal with Heq : EInsert _ = EInsert _ |- _ => injection Heq as <- end;
              insert_email_guard |].
  all: split; [intro Hw; split;
              [intros ? ? Hin; in_cases Hin
              | intro Hne; first [reflexivity | congruence | exfalso; apply Hne; reflexivity]] |].
  all: intros ? ? Hin; in_cases Hin.
  all: match goal with Heq : EFetch _ _ = EFetch _ _ |- _ => injection Heq as <- <- end.
  all: do 3 eexists; split; [simpl; left; reflexivity|].
  all: split; [first [reflexivity | eassumption]|]; split; [reflexivity|]; split; reflexivity.
Qed.

Lemma LeadB_run_facts (req : request) (e : env) (w : world) res tr fs :
  LeadB.parseBody req = JObj fs ->
  run (LeadB.onRequest req e w) = (res, tr) ->
  trace_shape tr /\
  (forall r, In (EInsert r) tr -> valid_email_col (row_email r)) /\
  (w_insert_ok w = false ->
     (forall u p, ~ In (EFetch u p) tr) /\
     (tr <> [] -> exists r, res = RVal (Reply r) /\ resp_status r = 500 /\
                            resp_body r = Some (err_body "Database insert failed."))) /\
  (forall u p, In (EFetch u p) tr ->
     exists r hook fs' s, In (EInsert r) tr /\ env_webhook e = Some hook /\ u = js_trim hook /\
                          p = JObj fs' /\ lookup "email" fs' = JStr s /\ row_email r = SText s).
Proof.
  intros Hp H. unfold run, LeadB.onRequest in H. rewrite Hp in H. run_M_in H.
  split_run_fast H.
  all: split; [unfold trace_shape; first [left; reflexivity | right; left; eexists; reflexivity
                    | right; right; do 3 eexists; reflexivity] |].
  all: split; [intros ? Hin; in_cases Hin;
              match goal with Heq : EInsert _ = EInsert _ |- _ => injection Heq as <- end;
              insert_email_guard |].
  all: split; [intro Hw; split;
              [intros ? ? Hin; in_cases Hin
              | intro Hne; first [eexists; split; [reflexivity | split; reflexivity] | congruence
                                 | exfalso; apply Hne; reflexivity]] |].
  all: intros ? ? Hin; in_cases Hin.
  all: match goal with Heq : EFetch _ _ = EFetch _ _ |- _ => injection Heq as <- <- end.
  all: do 4 eexists; split; [simpl; left; reflexivity|].
  all: split; [first [reflexivity | eassumption]|]; split; [reflexivity|].
  all: split; [reflexivity|]; split; reflexivity.
Qed.

Lemma Part000_run_facts (req : request) (e : env) (w : world) res tr fs :
  Part000.readBody req = Some (JObj fs) ->
  run (Part000.onRequest req e w) = (res, tr) ->
  trace_shape tr /\
  (forall r, In (EInsert r) tr -> valid_email_col (row_email r)) /\
  (w_insert_ok w = false ->
     (forall u p, ~ In (EFetch u p) tr) /\
     (tr <> [] -> exists r, res = RVal (Reply r) /\ resp_status r = 500 /\
                            resp_body r = Some (err_body "Server error"))) /\
  (forall r, res = RVal (Reply r) -> resp_status r = 200 ->
     resp_body r = Some (JObj [("ok", JBool true);
                               ("webhook_sent", JBool (w_fetch_ok w && has_fetch tr))])) /\
  (forall u p, In (EFetch u p) tr ->
     exists r hook fs' s, In (EInsert r) tr /\ env_webhook e = Some hook /\ u = js_trim hook /\
                          p = JObj fs' /\ lookup "email" fs' = JStr s /\ row_email r = SText s).
Proof.
  intros Hrb H. unfold run, Part000.onRequest in H. rewrite Hrb in H. run_M_in H.
  split_run_fast H.
  all: split; [unfold trace_shape; first [left; reflexivity | right; left; eexists; reflexivity
                    | right; right; do 3 eexists; reflexivity] |].
  all: split; [intros ? Hin; in_cases Hin;
              match goal with Heq : EInsert _ = EInsert _ |- _ => injection Heq as <- end;
              insert_email_guard |].
  all: split; [intro Hw; split;
              [intros ? ? Hin; in_cases Hin
              | intro Hne; first [eexists; split; [reflexivity | split; reflexivity] | congruence
                                 | exfalso; apply Hne; reflexivity]] |].
  all: split; [intros ? Hres Hst; injection Hres as <-; cbn in Hst; try discriminate Hst;
    cbn [resp_body has_fetch existsb orb]; rewrite ?andb_false_r;
    try (match goal with E : w_fetch_ok _ = _ |- _ => rewrite E end); reflexivity |].
  all: intros ? ? Hin; in_cases Hin.
  all: match goal with Heq : EFetch _ _ = EFetch _ _ |- _ => injection Heq as <- <- end.
  all: do 4 eexists; split; [simpl; left; reflexivity|].
  all: split; [first [reflexivity | eassumption]|]; split; [reflexivity|].
  all: split; [reflexivity|]; split; reflexivity.
Qed.

Ltac close_branches :=
  cbv beta iota zeta delta [Z.leb Z.eqb Z.compare Pos.compare Pos.eqb Pos.compare_cont
    andb orb];
  repeat (cbv beta iota zeta;
          match goal with
          | |- context [if ?b then _ else _] => destruct b
          | |- context [match ?o with Some _ => _ | None => _ end] => destruct o
          end);
  reflexivity.

Lemma LeadA_no_body_no_effect (req : request) (e : env) (w : world) :
  LeadA.readBody req = None -> snd (run (LeadA.onRequest req e w)) = [].
Proof.
  intro E. unfold run, LeadA.onRequest. rewrite E. run_M. close_branches.
Qed.

Lemma LeadB_non_object_no_effect (req : request) (e : env) (w : world) :
  (forall fs, LeadB.parseBody req <> JObj fs) -> snd (run (LeadB.onRequest req e w)) = [].
Proof.
  intro Hn. unfold run, LeadB.onRequest.
  destruct (LeadB.parseBody req) as [| | | | | |fs]; [| | | | | | exfalso; exact (Hn fs eq_refl)].
  all: run_M.
  all: cbv [LeadB.str truthy is_nullish js_String js_trim trim_start trim_end slice0 substring
            isValidEmail rx_match email_rx].
  all: close_branches.
Qed.

Lemma Part000_non_object_no_effect (req : request) (e : env) (w : world) :
  (forall fs, Part000.readBody req <> Some (JObj fs)) ->
  snd (run (Part000.onRequest req e w)) = [].
Proof.
  intro Hn. unfold run, Part000.onRequest.
  destruct (Part000.readBody req) as [[| | | | | |fs]|];
    [| | | | | | exfalso; exact (Hn fs eq_refl) |].
  all: run_M.
  all: cbv [Part000.normalizeStr toLowerCase truthy is_nullish js_String js_trim trim_start
            trim_end slice0 substring isValidEmail rx_match email_rx String.eqb Ascii.eqb
            Bool.eqb].
  all: close_branches.
Qed.

Lemma LeadA_cases (req : request) (e : env) (w : world) :
  snd (run (LeadA.onRequest req e w)) = [] \/ exists raw, LeadA.readBody req = Some raw.
Proof.
  destruct (LeadA.readBody req) as [raw|] eqn:E; [right; exists raw; reflexivity|].
  left; apply LeadA_no_body_no_effect; exact E.
Qed.

Lemma LeadB_cases (req : request) (e : env) (w : world) :
  snd (run (LeadB.onRequest req e w)) = [] \/ exists fs, LeadB.parseBody req = JObj fs.
Proof.
  destruct (LeadB.parseBody req) as [| | | | | |fs] eqn:E; try (right; exists fs; reflexivity);
    left; apply LeadB_non_object_no_effect; intros fs' H; rewrite E in H; discriminate H.
Qed.

Lemma Part000_cases (req : request) (e : env) (w : world) :
  snd (run (Part000.onRequest req e w)) = [] \/
  exists fs, Part000.readBody req = Some (JObj fs).
Proof.
  destruct (Part000.readBody req) as [[| | | | | |fs]|] eqn:E;
    try (right; exists fs; reflexivity);
    left; apply Part000_non_object_no_effect; intros fs' H; rewrite E in H; discriminate H.
Qed.

Lemma In_nil_false {A} (x : A) : ~ In x [].
Proof. intro H; exact H. Qed.

Lemma or_null_within (n : nat) (s : string) :
  (String.length s <= n)%nat -> text_within n (or_null s).
Proof. intro H. unfold or_null. destruct (String.eqb s ""); [exact I | exact H]. Qed.

Lemma or_null_null_or_nonempty (s : string) : null_or_nonempty (or_null s).
Proof.
  unfold null_or_nonempty, or_null. destruct (String.eqb_spec s "") as [_|Hne];
    [left; reflexivity | right; exists s; split; [reflexivity | exact Hne]].
Qed.

Lemma lookup_map_keys (f : string -> jval) (ks : list string) (k : string) :
  In k ks -> lookup k (map (fun k' => (k', f k')) ks) = f k.
Proof.
  induction ks as [|k0 ks IH]; intro Hin; [destruct Hin|]. simpl.
  destruct (String.eqb_spec k k0) as [->|Hne]; [reflexivity|].
  apply IH. destruct Hin as [E|Hin]; [congruence | exact Hin].
Qed.

Lemma form_get_first (k v : string) (es1 es2 : list (string * string)) :
  ~ In k (map fst es1) -> form_get k (es1 ++ (k, v) :: es2) = JStr v.
Proof.
  induction es1 as [|[k' v'] es1 IH]; intro Hn; simpl.
  - rewrite String.eqb_refl. reflexivity.
  - simpl in Hn. rewrite (eqb_neq_false k k') by (intro E; apply Hn; left; congruence).
    apply IH. intro H; apply Hn; right; exact H.
Qed.

Lemma last_or_absent (k : string) (es : list (string * string)) (d : jval) :
  ~ In k (map fst es) -> last_or k es d = d.
Proof.
  revert d; induction es as [|[k' v'] es IH]; intros d Hn; [reflexivity|]. simpl in *.
  rewrite (eqb_neq_false k k') by (intro E; apply Hn; left; congruence).
  apply IH. intro H; apply Hn; right; exact H.
Qed.

Lemma last_or_last (k v : string) (es1 es2 : list (string * string)) (d : jval) :
  ~ In k (map fst es2) -> last_or k (es1 ++ (k, v) :: es2) d = JStr v.
Proof.
  revert d; induction es1 as [|[k' v'] es1 IH]; intros d Hn; simpl.
  - rewrite String.eqb_refl. apply last_or_absent. exact Hn.
  - apply IH. exact Hn.
Qed.


Ltac split_goal_ifs :=
  cbv beta iota zeta delta [Z.leb Z.eqb Z.compare Pos.compare Pos.eqb Pos.compare_cont
    andb orb];
  repeat (cbv beta iota zeta;
          match goal with
          | |- context [if ?b then _ else _] => destruct b
          | |- context [match ?o with Some _ => _ | None => _ end] => destruct o
          end).

Lemma Part000_non_object_not_200 (req : request) (e : env) (w : world) :
  (forall fs, Part000.readBody req <> Some (JObj fs)) ->
  forall r, fst (run (Part000.onRequest req e w)) = RVal (Reply r) -> resp_status r <> 200.
Proof.
  intros Hn r. unfold run, Part000.onRequest.
  destruct (Part000.readBody req) as [[| | | | | |fs]|];
    [| | | | | | exfalso; exact (Hn fs eq_refl) |].
  all: run_M.
  all: cbv [Part000.normalizeStr toLowerCase truthy is_nullish js_String js_trim trim_start
            trim_end slice0 substring isValidEmail rx_match email_rx String.eqb Ascii.eqb
            Bool.eqb].
  all: split_goal_ifs.
  all: cbv beta iota zeta; intro H; first [discriminate H | injection H as <-; discriminate].
Qed.

Lemma text_within_slice0 (n : nat) (s : string) : text_within n (or_null (slice0 n s)).
Proof. apply or_null_within, slice0_length. Qed.


Lemma text_within_SText_slice0 (n : nat) (s : string) : text_within n (SText (slice0 n s)).
Proof. apply slice0_length. Qed.

(** * Claims *)





(** C3 counterexample: an address longer than 200 characters is stored cut
    to 200, not merely trimmed and lower-cased. *)
Lemma C3_counterexample :
  exists r, In (EInsert r) (snd (run (LeadA.onRequest
                   (json_post "/api/lead" [] (JObj [("email", JStr long_email); ("consent", JStr "on")]))
                   db_env ok_world))) /\
            row_email r <> SText (toLowerCase (js_trim long_email)).
Proof.
  vm_compute. eexists. split; [left; reflexivity|].
  intro H. apply (f_equal (fun v => match v with SText s => String.length s | _ => O end)) in H.
  vm_compute in H. discriminate.
Qed.

(** C3 (corrected).  The stored email is the caller's value coerced to
    text, trimmed and cut to its first 200 code units; the first handler of
    [lead.js] and [part_000] then lower-case it, and in the second handler
    of [lead.js] it agrees with that lower-cased value up to letter case. *)
Theorem C3_stored_email :
  (forall req e w res tr r raw,
     LeadA.readBody req = Some raw ->
     run (LeadA.onRequest req e w) = (res, tr) -> In (EInsert r) tr ->
     row_email r = SText (toLowerCase (slice0 200 (trimmed_text (lookup "email" raw))))) /\
  (forall req e w res tr r fs,
     LeadB.parseBody req = JObj fs ->
     run (LeadB.onRequest req e w) = (res, tr) -> In (EInsert r) tr ->
     exists s, row_email r = SText s /\
               toLowerCase s = toLowerCase (slice0 200 (trimmed_text (lookup "email" fs)))) /\
  (forall req e w res tr r fs,
     Part000.readBody req = Some (JObj fs) ->
     run (Part000.onRequest req e w) = (res, tr) -> In (EInsert r) tr ->
     row_email r = SText (toLowerCase (slice0 200 (trimmed_text (lookup "email" fs))))).
Proof.
  split; [|split].
  - intros req e w res tr r raw Hrb H Hin.
    rewrite (LeadA_inserted_row req e w res tr r raw Hrb H Hin). reflexivity.
  - intros req e w res tr r fs Hp H Hin.
    destruct (LeadB_inserted_row req e w res tr r fs Hp H Hin) as [-> _].
    eexists; split; reflexivity.
  - intros req e w res tr r fs Hrb H Hin.
    destruct (Part000_inserted_row req e w res tr r fs Hrb H Hin) as [-> _]. reflexivity.
Qed.

Lemma C3_witness :
  (exists r, In (EInsert r) (snd (run (LeadA.onRequest upper_req db_env ok_world))) /\
             row_email r = SText "jo@example.com") /\
  (exists r s, In (EInsert r) (snd (run (LeadB.onRequest upper_req db_env ok_world))) /\
               row_email r = SText s /\ toLowerCase s = "jo@example.com") /\
  (exists r, In (EInsert r) (snd (run (Part000.onRequest upper_req db_env ok_world))) /\
             row_email r = SText "jo@example.com").
Proof.
  split; [|split].
  - eexists; split; [vm_compute; left; reflexivity|].
    refine (proj1 C3_stored_email upper_req db_env ok_world _ _ _ _ eq_refl eq_refl _).
    vm_compute; left; reflexivity.
  - pose (r := {| row_name := SNull; row_email := SText "Jo@Example.COM";
                   row_website := SNull; row_message := SNull; row_consent := SInt 1;
                   row_source_path := SNull; row_user_agent := SNull |}).
    destruct (proj1 (proj2 C3_stored_email) upper_req db_env ok_world _ _ r _ eq_refl eq_refl)
      as [s [Hs Hl]]; [vm_compute; left; reflexivity|].
    exists r, s; split; [vm_compute; left; reflexivity|].
    split; [exact Hs|]. rewrite Hl. reflexivity.
  - eexists; split; [vm_compute; left; reflexivity|].
    refine (proj2 (proj2 C3_stored_email) upper_req db_env ok_world _ _ _ _ eq_refl eq_refl _).
    vm_compute; left; reflexivity.
Defined.







(** C6 counterexample: [part_000] answers a malformed JSON body with 500
    instead of continuing with an empty field map. *)
Lemma C6_counterexample :
  exists r, fst (run (Part000.onRequest bad_json_req db_env ok_world)) = RVal (Reply r) /\
            resp_status r = 500 /\ resp_body r = Some (err_body "Server error").
Proof. eexists; repeat split. Qed.

(** C6 (corrected).  Only the second handler of [lead.js] degrades a body
    its parser rejects to the empty map [{}] and goes on (answering 400
    "Email is required.", since the map holds no address).  In the first
    handler of [lead.js] (with [LEADS_DB] bound) the parse error reaches
    its outer [catch] block, and [part_000] answers 500 "Server error";
    neither inserts nor calls the webhook. *)
Theorem C6_malformed_body :
  (forall req e w,
     req_method req = "POST" ->
     let ct := toLowerCase (header_or_empty "content-type" req) in
     (includes ct "application/json" = true /\ req_json req = None) \/
     (includes ct "application/json" = false /\
      includes ct "application/x-www-form-urlencoded" = false /\
      includes ct "multipart/form-data" = true /\ req_form req = None) \/
     (includes ct "application/json" = false /\
      (includes ct "application/x-www-form-urlencoded" = true \/
       includes ct "multipart/form-data" = false) /\ req_text_params req = None) ->
     LeadB.parseBody req = JObj [] /\
     exists r, run (LeadB.onRequest req e w) = (RVal (Reply r), []) /\
               resp_status r = 400 /\ resp_body r = Some (err_body "Email is required.")) /\
  (forall req e w,
     req_method req = "POST" -> env_leads_db e = true ->
     let ct := header_or_empty "content-type" req in
     (includes ct "application/json" = true /\ req_json req = None) \/
     (includes ct "application/json" = false /\ req_form req = None) ->
     run (LeadA.onRequest req e w) = (RVal TruncatedCatch, [])) /\
  (forall req e w,
     req_method req = "POST" ->
     let ct := header_or_empty "content-type" req in
     (includes ct "application/json" = true /\ req_json req = None) \/
     (includes ct "application/json" = false /\ req_form req = None) ->
     exists r, run (Part000.onRequest req e w) = (RVal (Reply r), []) /\
               resp_status r = 500 /\ resp_body r = Some (err_body "Server error")).
Proof.
  split; [|split].
  - intros req e w Hm ct Hf.
    assert (Hp : LeadB.parseBody req = JObj []).
    { unfold LeadB.parseBody. fold ct.
      destruct Hf as [[Hj Hn] | [[Hj [Hu [Hmp Hn]]] | [Hj [Hu Hn]]]].
      - rewrite Hj, Hn. reflexivity.
      - rewrite Hj, Hu, Hmp, Hn. reflexivity.
      - rewrite Hj, Hn. destruct Hu as [Hu | Hu]; rewrite Hu; [reflexivity|].
        destruct (includes ct "application/x-www-form-urlencoded"); reflexivity. }
    split; [exact Hp|].
    unfold run, LeadB.onRequest. post_branch Hm. rewrite Hp. run_M. cbn.
    eexists; repeat split.
  - intros req e w Hm Hdb ct Hf.
    unfold run, LeadA.onRequest. post_branch Hm. rewrite Hdb.
    replace (LeadA.readBody req) with (@None (list (string * jval))).
    + reflexivity.
    + unfold LeadA.readBody. fold ct.
      destruct Hf as [[Hj Hn] | [Hj Hn]]; rewrite Hj, Hn; reflexivity.
  - intros req e w Hm ct Hf.
    unfold run, Part000.onRequest. post_branch Hm.
    replace (Part000.readBody req) with (@None jval).
    + cbn. eexists; repeat split.
    + unfold Part000.readBody. fold ct.
      destruct Hf as [[Hj Hn] | [Hj Hn]]; rewrite Hj, Hn; reflexivity.
Qed.

Lemma C6_witness :
  (LeadB.parseBody bad_json_req = JObj [] /\
   exists r, run (LeadB.onRequest bad_json_req db_env ok_world) = (RVal (Reply r), []) /\
             resp_status r = 400 /\ resp_body r = Some (err_body "Email is required.")) /\
  run (LeadA.onRequest bad_json_req db_env ok_world) = (RVal TruncatedCatch, []) /\
  (exists r, run (Part000.onRequest bad_json_req db_env ok_world) = (RVal (Reply r), []) /\
             resp_status r = 500 /\ resp_body r = Some (err_body "Server error")).
Proof.
  split; [|split].
  - apply (proj1 C6_malformed_body); [reflexivity | left; split; reflexivity].
  - apply (proj1 (proj2 C6_malformed_body)); [reflexivity | reflexivity | left; split; reflexivity].
  - apply (proj2 (proj2 C6_malformed_body)); [reflexivity | left; split; reflexivity].
Defined.




(** C8 counterexample: with no [source_path] and a Referer, the first
    handler of [lead.js] stores the request path, not the Referer's path. *)
Lemma C8_counterexample :
  exists r, In (EInsert r) (snd (run (LeadA.onRequest (ref_req "") db_env ok_world))) /\
            row_source_path r = SText "/api/lead".
Proof. vm_compute. eexists; split; [left; reflexivity | reflexivity]. Qed.

(** C8 (corrected).  The stored [source_path]:
    - first handler of [lead.js]: the caller's value (trimmed, cut to 300)
      if non-empty, else the request URL's path; the Referer is not read;
    - second handler of [lead.js]: the caller's value (trimmed, cut to 500),
      NULL when empty; there is no fallback;
    - [part_000]: the caller's value (trimmed, cut to 500) if non-empty,
      else the Referer's path when the Referer is present, parses and has a
      non-empty path, else the request URL's path. *)
Theorem C8_source_path :
  (forall req e w res tr r raw,
     LeadA.readBody req = Some raw ->
     run (LeadA.onRequest req e w) = (res, tr) -> In (EInsert r) tr ->
     let given := slice0 300 (trimmed_text (lookup "source_path" raw)) in
     row_source_path r = or_null (if String.eqb given "" then req_url_path req else given)) /\
  (forall req e w res tr r fs,
     LeadB.parseBody req = JObj fs ->
     run (LeadB.onRequest req e w) = (res, tr) -> In (EInsert r) tr ->
     row_source_path r = or_null (slice0 500 (trimmed_text (lookup "source_path" fs)))) /\
  (forall req e w res tr r fs,
     Part000.readBody req = Some (JObj fs) ->
     run (Part000.onRequest req e w) = (res, tr) -> In (EInsert r) tr ->
     let given := slice0 500 (trimmed_text (lookup "source_path" fs)) in
     (given <> "" -> row_source_path r = SText given) /\
     (forall p, given = "" -> header_or_empty "referer" req <> "" ->
        req_referer_path req = Some p -> p <> "" -> row_source_path r = SText p) /\
     (given = "" ->
        header_or_empty "referer" req = "" \/ req_referer_path req = None \/
        req_referer_path req = Some "" ->
        row_source_path r = SText (req_url_path req))).
Proof.
  split; [|split].
  - intros req e w res tr r raw Hrb H Hin given.
    rewrite (LeadA_inserted_row req e w res tr r raw Hrb H Hin). reflexivity.
  - intros req e w res tr r fs Hp H Hin.
    destruct (LeadB_inserted_row req e w res tr r fs Hp H Hin) as [-> _]. reflexivity.
  - intros req e w res tr r fs Hrb H Hin given.
    destruct (Part000_inserted_row req e w res tr r fs Hrb H Hin) as [-> _].
    cbn [row_source_path]. unfold Part000.resolve_source_path. fold given.
    split; [|split].
    + intro Hne. rewrite (eqb_neq_false given "" Hne). reflexivity.
    + intros p Hg Href Hp Hpne. rewrite Hg. cbn [String.eqb negb].
      rewrite (eqb_neq_false _ "" Href), Hp, (eqb_neq_false p "" Hpne). reflexivity.
    + intros Hg Hcase. rewrite Hg. cbn [String.eqb negb].
      destruct Hcase as [Href | [Hp | Hp]].
      * rewrite Href. reflexivity.
      * rewrite Hp. destruct (String.eqb (header_or_empty "referer" req) ""); reflexivity.
      * rewrite Hp. destruct (String.eqb (header_or_empty "referer" req) ""); reflexivity.
Qed.

Lemma C8_witness :
  (exists r, In (EInsert r) (snd (run (LeadA.onRequest (ref_req "") db_env ok_world))) /\
             row_source_path r = SText "/api/lead") /\
  (exists r, In (EInsert r) (snd (run (LeadB.onRequest (ref_req "") db_env ok_world))) /\
             row_source_path r = SNull) /\
  (exists r, In (EInsert r) (snd (run (Part000.onRequest (ref_req " /pricing ") db_env ok_world))) /\
             row_source_path r = SText "/pricing") /\
  (exists r, In (EInsert r) (snd (run (Part000.onRequest (ref_req "") db_env ok_world))) /\
             row_source_path r = SText "/contact").
Proof.
  pose proof C8_source_path as (HA & HB & HC).
  split; [|split; [|split]].
  - eexists; split; [vm_compute; left; reflexivity|].
    refine (HA (ref_req "") db_env ok_world _ _ _ _ eq_refl eq_refl _).
    vm_compute; left; reflexivity.
  - eexists; split; [vm_compute; left; reflexivity|].
    refine (HB (ref_req "") db_env ok_world _ _ _ _ eq_refl eq_refl _).
    vm_compute; left; reflexivity.
  - eexists; split; [vm_compute; left; reflexivity|].
    refine (proj1 (HC (ref_req " /pricing ") db_env ok_world _ _ _ _ eq_refl eq_refl _) _).
    + vm_compute; left; reflexivity.
    + vm_compute; discriminate.
  - eexists; split; [vm_compute; left; reflexivity|].
    refine (proj1 (proj2 (HC (ref_req "") db_env ok_world _ _ _ _ eq_refl eq_refl _))
              "/contact" eq_refl _ eq_refl _).
    + vm_compute; left; reflexivity.
    + vm_compute; discriminate.
    + discriminate.
Defined.




(** C10: in both handlers of lead.js that read a honeypot field, a request
    whose [company] and [hp] fields hold only whitespace gets exactly the
    reply, insert and webhook call of the same request with those fields
    removed: it is not dropped as a bot and goes through validation and
    storage as a normal submission. *)
Theorem C10_blank_honeypot_ignored (req : request) (e : env) (w : world) :
  honeypot_blank req ->
  run (LeadA.onRequest req e w) = run (LeadA.onRequest (strip_hp req) e w) /\
  run (LeadB.onRequest req e w) = run (LeadB.onRequest (strip_hp req) e w).
Proof.
  intro H. rewrite (LeadA_strip_hp_same req e w H), (LeadB_strip_hp_same req e w H).
  split; reflexivity.
Qed.

Lemma C10_witness :
  honeypot_blank blank_hp_req /\
  run (LeadA.onRequest blank_hp_req db_env ok_world) =
  run (LeadA.onRequest (strip_hp blank_hp_req) db_env ok_world) /\
  run (LeadB.onRequest blank_hp_req db_env ok_world) =
  run (LeadB.onRequest (strip_hp blank_hp_req) db_env ok_world).
Proof.
  assert (Hb : honeypot_blank blank_hp_req).
  { split; [|split]; intros es Es; try discriminate Es.
    injection Es as <-. intros k v Hin Hk.
    simpl in Hin. repeat destruct Hin as [Hin|Hin];
      try (injection Hin as <- <-; discriminate Hk);
      try (injection Hin as <- <-; eexists; split; reflexivity).
    destruct Hin. }
  split; [exact Hb | apply (C10_blank_honeypot_ignored blank_hp_req db_env ok_world Hb)].
Defined.

(** * Further properties of the code *)

(** X1: [isValidEmail] accepts exactly the strings [a ++ "@" ++ b ++ "." ++ c]
    where [a], [b] and [c] are non-empty and contain no white space and no [@]. *)
Theorem isValidEmail_iff (s : string) :
  isValidEmail s = true <->
  exists a b c, email_part a = true /\ email_part b = true /\ email_part c = true /\
                s = a ++ "@" ++ b ++ "." ++ c.
Proof.
  unfold isValidEmail, email_rx. split.
  - intro H.
    apply rx_match_plus in H as (a & q1 & Ha & Hal & -> & H).
    apply rx_match_one in H as (c1 & q2 & -> & Hc1 & H). apply atom_ok_lit in Hc1; subst c1.
    apply rx_match_plus in H as (b & q3 & Hb & Hbl & -> & H).
    apply rx_match_one in H as (c2 & q4 & -> & Hc2 & H). apply atom_ok_lit in Hc2; subst c2.
    apply rx_match_plus in H as (c & q5 & Hc & Hcl & -> & H).
    apply rx_match_nil in H; subst q5.
    exists a, b, c. rewrite !email_part_iff. repeat split; auto.
    rewrite !string_app_empty_r. reflexivity.
  - intros (a & b & c & Ha & Hb & Hc & ->).
    apply email_part_iff in Ha as [Ha Hal], Hb as [Hb Hbl], Hc as [Hc Hcl].
    apply rx_match_plus. exists a, ("@" ++ b ++ "." ++ c). repeat split; auto.
    apply rx_match_one. exists "@"%char, (b ++ "." ++ c). repeat split; auto.
    apply rx_match_plus. exists b, ("." ++ c). repeat split; auto.
    apply rx_match_one. exists "."%char, c. repeat split; auto.
    apply rx_match_plus. exists c, "". repeat split; auto.
    rewrite string_app_empty_r. reflexivity.
Qed.

(** X2: lower-casing an address never changes whether [isValidEmail]
    accepts it. *)
Theorem isValidEmail_toLowerCase (s : string) :
  isValidEmail (toLowerCase s) = isValidEmail s.
Proof.
  apply rx_match_lower. unfold email_rx.
  repeat constructor; intro c; simpl piece_atom;
    first [apply lower_char_not_space_or_at | apply (lower_char_lit c)].
Qed.

(** X3: [normalizeString] (and [normalizeStr] of [part_000], which agrees
    with it) returns a prefix of the trimmed text of the value of at most
    [max] code units, and the whole trimmed text when that fits. *)
Theorem normalizeString_bounds (v : jval) (n : nat) :
  (String.length (LeadA.normalizeString v n) <= n)%nat /\
  prefix (LeadA.normalizeString v n) (trimmed_text v) = true /\
  ((String.length (trimmed_text v) <= n)%nat -> LeadA.normalizeString v n = trimmed_text v) /\
  Part000.normalizeStr v n = LeadA.normalizeString v n.
Proof.
  rewrite LeadA_normalizeString_eq, Part000_normalizeStr_eq.
  split; [apply slice0_length|]. split; [apply slice0_prefix|]. split; [|reflexivity].
  intro H. apply substring_0_all. exact H.
Qed.

Lemma normalizeString_bounds_witness :
  LeadA.normalizeString (JStr "  Ab ") 5 = "Ab" /\
  (String.length (LeadA.normalizeString (JStr "  Abcdef ") 3) <= 3)%nat.
Proof.
  split.
  - apply (proj1 (proj2 (proj2 (normalizeString_bounds (JStr "  Ab ") 5)))).
    vm_compute. lia.
  - exact (proj1 (normalizeString_bounds (JStr "  Abcdef ") 3)).
Defined.

(** X4: every run of every handler performs no external call, or one D1
    insert, or one D1 insert followed by one webhook [fetch], in that order. *)
Theorem handlers_trace_shape (req : request) (e : env) (w : world) :
  trace_shape (snd (run (LeadA.onRequest req e w))) /\
  trace_shape (snd (run (LeadB.onRequest req e w))) /\
  trace_shape (snd (run (Part000.onRequest req e w))).
Proof.
  split; [|split].
  - destruct (LeadA_cases req e w) as [E|[raw Hrb]]; [rewrite E; left; reflexivity|].
    destruct (run (LeadA.onRequest req e w)) as [res tr] eqn:H.
    exact (proj1 (LeadA_run_facts req e w res tr raw Hrb H)).
  - destruct (LeadB_cases req e w) as [E|[fs Hp]]; [rewrite E; left; reflexivity|].
    destruct (run (LeadB.onRequest req e w)) as [res tr] eqn:H.
    exact (proj1 (LeadB_run_facts req e w res tr fs Hp H)).
  - destruct (Part000_cases req e w) as [E|[fs Hrb]]; [rewrite E; left; reflexivity|].
    destruct (run (Part000.onRequest req e w)) as [res tr] eqn:H.
    exact (proj1 (Part000_run_facts req e w res tr fs Hrb H)).
Qed.

(** X5: every row a handler inserts has, as its email, a non-empty text
    accepted by [isValidEmail]. *)
Theorem stored_email_valid :
  (forall req e w r, In (EInsert r) (snd (run (LeadA.onRequest req e w))) ->
     valid_email_col (row_email r)) /\
  (forall req e w r, In (EInsert r) (snd (run (LeadB.onRequest req e w))) ->
     valid_email_col (row_email r)) /\
  (forall req e w r, In (EInsert r) (snd (run (Part000.onRequest req e w))) ->
     valid_email_col (row_email r)).
Proof.
  split; [|split]; intros req e w r Hin.
  - destruct (LeadA_cases req e w) as [E|[raw Hrb]]; [rewrite E in Hin; destruct Hin|].
    destruct (run (LeadA.onRequest req e w)) as [res tr] eqn:H.
    exact (proj1 (proj2 (LeadA_run_facts req e w res tr raw Hrb H)) r Hin).
  - destruct (LeadB_cases req e w) as [E|[fs Hp]]; [rewrite E in Hin; destruct Hin|].
    destruct (run (LeadB.onRequest req e w)) as [res tr] eqn:H.
    exact (proj1 (proj2 (LeadB_run_facts req e w res tr fs Hp H)) r Hin).
  - destruct (Part000_cases req e w) as [E|[fs Hrb]]; [rewrite E in Hin; destruct Hin|].
    destruct (run (Part000.onRequest req e w)) as [res tr] eqn:H.
    exact (proj1 (proj2 (Part000_run_facts req e w res tr fs Hrb H)) r Hin).
Qed.

Lemma stored_email_valid_witness :
  (exists r, In (EInsert r) (snd (run (LeadA.onRequest scenario_req db_env ok_world))) /\
             valid_email_col (row_email r)) /\
  (exists r, In (EInsert r) (snd (run (LeadB.onRequest scenario_req db_env ok_world))) /\
             valid_email_col (row_email r)) /\
  (exists r, In (EInsert r) (snd (run (Part000.onRequest scenario_req db_env ok_world))) /\
             valid_email_col (row_email r)).
Proof.
  split; [|split]; (eexists; split; [vm_compute; left; reflexivity|]).
  - apply (proj1 stored_email_valid scenario_req db_env ok_world).
    vm_compute; left; reflexivity.
  - apply (proj1 (proj2 stored_email_valid) scenario_req db_env ok_world).
    vm_compute; left; reflexivity.
  - apply (proj2 (proj2 stored_email_valid) scenario_req db_env ok_world).
    vm_compute; left; reflexivity.
Defined.

(** X6: when the D1 insert rejects, no handler calls the webhook; the first
    handler of [lead.js] reaches its outer [catch], the second answers 500
    "Database insert failed." and [part_000] answers 500 "Server error". *)
Theorem insert_failure_no_webhook (req : request) (e : env) (w : world) :
  w_insert_ok w = false ->
  (forall u p, ~ In (EFetch u p) (snd (run (LeadA.onRequest req e w)))) /\
  (forall r, In (EInsert r) (snd (run (LeadA.onRequest req e w))) ->
     fst (run (LeadA.onRequest req e w)) = RVal TruncatedCatch) /\
  (forall u p, ~ In (EFetch u p) (snd (run (LeadB.onRequest req e w)))) /\
  (forall r, In (EInsert r) (snd (run (LeadB.onRequest req e w))) ->
     exists r', fst (run (LeadB.onRequest req e w)) = RVal (Reply r') /\ resp_status r' = 500 /\
                resp_body r' = Some (err_body "Database insert failed.")) /\
  (forall u p, ~ In (EFetch u p) (snd (run (Part000.onRequest req e w)))) /\
  (forall r, In (EInsert r) (snd (run (Part000.onRequest req e w))) ->
     exists r', fst (run (Part000.onRequest req e w)) = RVal (Reply r') /\ resp_status r' = 500 /\
                resp_body r' = Some (err_body "Server error")).
Proof.
  intro Hw.
  assert (Hne : forall (tr : list effect) x, In x tr -> tr <> []).
  { intros tr x Hin E; subst tr; exact Hin. }
  split; [|split; [|split; [|split; [|split]]]].
  - intros u p Hin. destruct (LeadA_cases req e w) as [E|[raw Hrb]]; [rewrite E in Hin; exact Hin|].
    destruct (run (LeadA.onRequest req e w)) as [res tr] eqn:H.
    exact (proj1 (proj1 (proj2 (proj2 (LeadA_run_facts req e w res tr raw Hrb H))) Hw) u p Hin).
  - intros r Hin. destruct (LeadA_cases req e w) as [E|[raw Hrb]]; [rewrite E in Hin; destruct Hin|].
    destruct (run (LeadA.onRequest req e w)) as [res tr] eqn:H.
    exact (proj2 (proj1 (proj2 (proj2 (LeadA_run_facts req e w res tr raw Hrb H))) Hw) (Hne _ _ Hin)).
  - intros u p Hin. destruct (LeadB_cases req e w) as [E|[fs Hp]]; [rewrite E in Hin; exact Hin|].
    destruct (run (LeadB.onRequest req e w)) as [res tr] eqn:H.
    exact (proj1 (proj1 (proj2 (proj2 (LeadB_run_facts req e w res tr fs Hp H))) Hw) u p Hin).
  - intros r Hin. destruct (LeadB_cases req e w) as [E|[fs Hp]]; [rewrite E in Hin; destruct Hin|].
    destruct (run (LeadB.onRequest req e w)) as [res tr] eqn:H.
    exact (proj2 (proj1 (proj2 (proj2 (LeadB_run_facts req e w res tr fs Hp H))) Hw) (Hne _ _ Hin)).
  - intros u p Hin. destruct (Part000_cases req e w) as [E|[fs Hrb]]; [rewrite E in Hin; exact Hin|].
    destruct (run (Part000.onRequest req e w)) as [res tr] eqn:H.
    exact (proj1 (proj1 (proj2 (proj2 (Part000_run_facts req e w res tr fs Hrb H))) Hw) u p Hin).
  - intros r Hin. destruct (Part000_cases req e w) as [E|[fs Hrb]]; [rewrite E in Hin; destruct Hin|].
    destruct (run (Part000.onRequest req e w)) as [res tr] eqn:H.
    exact (proj2 (proj1 (proj2 (proj2 (Part000_run_facts req e w res tr fs Hrb H))) Hw) (Hne _ _ Hin)).
Qed.

Lemma insert_failure_no_webhook_witness :
  (forall u p, ~ In (EFetch u p)
                   (snd (run (LeadB.onRequest scenario_req hook_env insert_fail_world)))) /\
  (exists r', fst (run (LeadB.onRequest scenario_req hook_env insert_fail_world)) =
                RVal (Reply r') /\ resp_status r' = 500 /\
              resp_body r' = Some (err_body "Database insert failed.")).
Proof.
  destruct (insert_failure_no_webhook scenario_req hook_env insert_fail_world eq_refl)
    as (_ & _ & HB1 & HB2 & _).
  split; [exact HB1|]. eapply HB2. vm_compute; left; reflexivity.
Defined.



(** X8: on a 200 reply of [part_000], [webhook_sent] is true exactly when the
    webhook was called and the call resolved. *)
Theorem Part000_webhook_sent (req : request) (e : env) (w : world) (r : response) :
  fst (run (Part000.onRequest req e w)) = RVal (Reply r) -> resp_status r = 200 ->
  resp_body r = Some (JObj [("ok", JBool true);
                            ("webhook_sent",
                             JBool (w_fetch_ok w && has_fetch (snd (run (Part000.onRequest req e w)))))]).
Proof.
  intros Hres Hst.
  destruct (Part000.readBody req) as [[| | | | | |fs]|] eqn:Hrb;
    try (exfalso; refine (Part000_non_object_not_200 req e w _ r Hres Hst);
         intros fs' Hf; rewrite Hrb in Hf; discriminate Hf).
  destruct (run (Part000.onRequest req e w)) as [res tr] eqn:H. cbn [fst snd] in *.
  exact (proj1 (proj2 (proj2 (proj2 (Part000_run_facts req e w res tr fs Hrb H)))) r Hres Hst).
Qed.

Lemma Part000_webhook_sent_witness :
  exists r, fst (run (Part000.onRequest scenario_req hook_env net_error_world)) = RVal (Reply r) /\
            resp_status r = 200 /\
            resp_body r = Some (JObj [("ok", JBool true); ("webhook_sent", JBool false)]).
Proof.
  eexists; split; [vm_compute; reflexivity|]. split; [reflexivity|].
  rewrite (Part000_webhook_sent scenario_req hook_env net_error_world _
             ltac:(vm_compute; reflexivity) eq_refl).
  vm_compute. reflexivity.
Defined.

(** X9: the reply and the external calls of the second handler of [lead.js]
    are the same whether the webhook [fetch] resolves or rejects. *)
Theorem LeadB_webhook_outcome_irrelevant (req : request) (e : env) (w : world) (b : bool) :
  run (LeadB.onRequest req e (with_fetch w b)) = run (LeadB.onRequest req e w).
Proof.
  unfold run, LeadB.onRequest, with_fetch. run_M. cbn [w_insert_ok w_fetch_ok w_now].
  destruct b, (w_fetch_ok w); reflexivity.
Qed.

(** X10: a request whose method is neither OPTIONS nor POST gets status 405
    with an error body from every handler, and no external call is made. *)
Theorem other_methods_405 (req : request) (e : env) (w : world) :
  req_method req <> "OPTIONS" -> req_method req <> "POST" ->
  (exists r, run (LeadA.onRequest req e w) = (RVal (Reply r), []) /\
             resp_status r = 405 /\ resp_body r = Some (err_body "Method not allowed")) /\
  (exists r, run (LeadB.onRequest req e w) = (RVal (Reply r), []) /\
             resp_status r = 405 /\ resp_body r = Some (err_body "Method not allowed. Use POST.")) /\
  (exists r, run (Part000.onRequest req e w) = (RVal (Reply r), []) /\
             resp_status r = 405 /\ resp_body r = Some (err_body "Method not allowed")).
Proof.
  intros H1 H2. apply String.eqb_neq in H1, H2.
  unfold run, LeadA.onRequest, LeadB.onRequest, Part000.onRequest. rewrite H1, H2. run_M.
  cbv beta iota zeta delta [Z.leb Z.eqb Z.compare Pos.compare Pos.eqb Pos.compare_cont andb orb].
  split; [|split]; eexists; (split; [reflexivity | split; reflexivity]).
Qed.

Lemma other_methods_405_witness :
  (exists r, run (LeadA.onRequest get_req db_env ok_world) = (RVal (Reply r), []) /\
             resp_status r = 405 /\ resp_body r = Some (err_body "Method not allowed")) /\
  (exists r, run (LeadB.onRequest get_req db_env ok_world) = (RVal (Reply r), []) /\
             resp_status r = 405 /\ resp_body r = Some (err_body "Method not allowed. Use POST.")) /\
  (exists r, run (Part000.onRequest get_req db_env ok_world) = (RVal (Reply r), []) /\
             resp_status r = 405 /\ resp_body r = Some (err_body "Method not allowed")).
Proof.
  apply other_methods_405; vm_compute; intro H; discriminate H.
Defined.

(** X11: when a form field is sent several times, the first handler of
    [lead.js] reads its first value ([FormData.get]), while the second
    handler (multipart) and [part_000] read its last value. *)
Theorem duplicate_form_fields :
  (forall req k v es1 es2,
     req_form req = Some (es1 ++ (k, v) :: es2)%list ->
     includes (header_or_empty "content-type" req) "application/json" = false ->
     In k LeadA.body_keys -> ~ In k (map fst es1) ->
     exists raw, LeadA.readBody req = Some raw /\ lookup k raw = JStr v) /\
  (forall req k v es1 es2,
     req_form req = Some (es1 ++ (k, v) :: es2)%list ->
     includes (toLowerCase (header_or_empty "content-type" req)) "application/json" = false ->
     includes (toLowerCase (header_or_empty "content-type" req))
              "application/x-www-form-urlencoded" = false ->
     includes (toLowerCase (header_or_empty "content-type" req)) "multipart/form-data" = true ->
     ~ In k (map fst es2) ->
     exists fs, LeadB.parseBody req = JObj fs /\ lookup k fs = JStr v) /\
  (forall req k v es1 es2,
     req_form req = Some (es1 ++ (k, v) :: es2)%list ->
     includes (header_or_empty "content-type" req) "application/json" = false ->
     ~ In k (map fst es2) ->
     exists fs, Part000.readBody req = Some (JObj fs) /\ lookup k fs = JStr v).
Proof.
  split; [|split]; intros req k v es1 es2 Hf.
  - intros Hct Hk Hn. unfold LeadA.readBody. rewrite Hct, Hf.
    eexists; split; [reflexivity|]. rewrite lookup_map_keys by exact Hk.
    apply form_get_first; exact Hn.
  - intros Hj Hu Hm Hn. unfold LeadB.parseBody. rewrite Hj, Hu, Hm, Hf.
    eexists; split; [reflexivity|]. rewrite lookup_fromEntries. apply last_or_last; exact Hn.
  - intros Hct Hn. unfold Part000.readBody. rewrite Hct, Hf.
    eexists; split; [reflexivity|]. rewrite lookup_fromEntries. apply last_or_last; exact Hn.
Qed.

Lemma duplicate_form_fields_witness :
  (exists raw, LeadA.readBody dup_req = Some raw /\ lookup "email" raw = JStr "a@b.co") /\
  (exists fs, LeadB.parseBody dup_req = JObj fs /\ lookup "email" fs = JStr "c@d.co") /\
  (exists fs, Part000.readBody dup_req = Some (JObj fs) /\ lookup "email" fs = JStr "c@d.co").
Proof.
  split; [|split].
  - apply (proj1 duplicate_form_fields dup_req "email" "a@b.co" [] [("email", "c@d.co")]);
      [reflexivity | vm_compute; reflexivity | cbv; right; left; reflexivity
      | intro H; exact H].
  - apply (proj1 (proj2 duplicate_form_fields) dup_req "email" "c@d.co"
             [("email", "a@b.co")] []);
      [reflexivity | vm_compute; reflexivity | vm_compute; reflexivity
      | vm_compute; reflexivity | intro H; exact H].
  - apply (proj2 (proj2 duplicate_form_fields) dup_req "email" "c@d.co"
             [("email", "a@b.co")] []);
      [reflexivity | vm_compute; reflexivity | intro H; exact H].
Defined.



(** X13: the second handler of [lead.js] inserts at most 120 code units of
    name, 200 of email, 300 of website, 3000 of message, 500 of source path
    and 400 of user agent. *)
Theorem LeadB_column_bounds (req : request) (e : env) (w : world) (r : row) :
  In (EInsert r) (snd (run (LeadB.onRequest req e w))) ->
  text_within 120 (row_name r) /\ text_within 200 (row_email r) /\
  text_within 300 (row_website r) /\ text_within 3000 (row_message r) /\
  text_within 500 (row_source_path r) /\ text_within 400 (row_user_agent r).
Proof.
  intro Hin.
  destruct (LeadB_cases req e w) as [E|[fs Hp]]; [rewrite E in Hin; destruct Hin|].
  destruct (run (LeadB.onRequest req e w)) as [res tr] eqn:H.
  rewrite (proj1 (LeadB_inserted_row req e w res tr r fs Hp H Hin)); cbn [row_name row_email
    row_website row_message row_source_path row_user_agent].
  repeat split; first [apply text_within_slice0 | apply text_within_SText_slice0].
Qed.

Lemma LeadB_column_bounds_witness :
  exists r, In (EInsert r) (snd (run (LeadB.onRequest scenario_req db_env ok_world))) /\
    text_within 120 (row_name r) /\ text_within 200 (row_email r) /\
    text_within 300 (row_website r) /\ text_within 3000 (row_message r) /\
    text_within 500 (row_source_path r) /\ text_within 400 (row_user_agent r).
Proof.
  eexists; split; [vm_compute; left; reflexivity|].
  apply (LeadB_column_bounds scenario_req db_env ok_world). vm_compute; left; reflexivity.
Defined.



(** X15: the handlers of [lead.js] bind NULL or a non-empty text to name,
    website, message, source path and user agent; [part_000] always binds a
    text there, possibly empty, and never NULL. *)
Theorem optional_columns_null_or_text :
  (forall req e w r, In (EInsert r) (snd (run (LeadA.onRequest req e w))) ->
     null_or_nonempty (row_name r) /\ null_or_nonempty (row_website r) /\
     null_or_nonempty (row_message r) /\ null_or_nonempty (row_source_path r) /\
     null_or_nonempty (row_user_agent r)) /\
  (forall req e w r, In (EInsert r) (snd (run (LeadB.onRequest req e w))) ->
     null_or_nonempty (row_name r) /\ null_or_nonempty (row_website r) /\
     null_or_nonempty (row_message r) /\ null_or_nonempty (row_source_path r) /\
     null_or_nonempty (row_user_agent r)) /\
  (forall req e w r, In (EInsert r) (snd (run (Part000.onRequest req e w))) ->
     (exists s, row_name r = SText s) /\ (exists s, row_website r = SText s) /\
     (exists s, row_message r = SText s) /\ (exists s, row_source_path r = SText s) /\
     (exists s, row_user_agent r = SText s)).
Proof.
  split; [|split]; intros req e w r Hin.
  - destruct (LeadA_cases req e w) as [E|[raw Hrb]]; [rewrite E in Hin; destruct Hin|].
    destruct (run (LeadA.onRequest req e w)) as [res tr] eqn:H.
    rewrite (LeadA_inserted_row req e w res tr r raw Hrb H Hin); cbn [row_name row_website
      row_message row_source_path row_user_agent].
    repeat split; apply or_null_null_or_nonempty.
  - destruct (LeadB_cases req e w) as [E|[fs Hp]]; [rewrite E in Hin; destruct Hin|].
    destruct (run (LeadB.onRequest req e w)) as [res tr] eqn:H.
    rewrite (proj1 (LeadB_inserted_row req e w res tr r fs Hp H Hin)); cbn [row_name
      row_website row_message row_source_path row_user_agent].
    repeat split; apply or_null_null_or_nonempty.
  - destruct (Part000_cases req e w) as [E|[fs Hrb]]; [rewrite E in Hin; destruct Hin|].
    destruct (run (Part000.onRequest req e w)) as [res tr] eqn:H.
    rewrite (proj1 (Part000_inserted_row req e w res tr r fs Hrb H Hin)); cbn [row_name
      row_website row_message row_source_path row_user_agent].
    repeat split; eexists; reflexivity.
Qed.

Lemma optional_columns_null_or_text_witness :
  (exists r, In (EInsert r) (snd (run (LeadA.onRequest scenario_req db_env ok_world))) /\
     null_or_nonempty (row_name r) /\ null_or_nonempty (row_website r) /\
     null_or_nonempty (row_message r) /\ null_or_nonempty (row_source_path r) /\
     null_or_nonempty (row_user_agent r)) /\
  (exists r, In (EInsert r) (snd (run (Part000.onRequest scenario_req db_env ok_world))) /\
     (exists s, row_name r = SText s) /\ (exists s, row_website r = SText s) /\
     (exists s, row_message r = SText s) /\ (exists s, row_source_path r = SText s) /\
     (exists s, row_user_agent r = SText s)).
Proof.
  split; (eexists; split; [vm_compute; left; reflexivity|]).
  - apply (proj1 optional_columns_null_or_text scenario_req db_env ok_world).
    vm_compute; left; reflexivity.
  - apply (proj2 (proj2 optional_columns_null_or_text) scenario_req db_env ok_world).
    vm_compute; left; reflexivity.
Defined.
